(** * Room acoustics of the Resonance Audio web SDK (src/room.js)

    A shallow embedding of [room.js]: the material table, the resolver
    [Room.getCoefficientsFromMaterials], the two sanitizers, the early
    reflection coefficients and the RT60 estimator, with the properties the
    specification states about them.

    JavaScript numbers are IEEE 754 binary64 values: they are modelled by
    Rocq's primitive floats, whose operations are the IEEE ones.  Objects
    used as string-keyed tables are finite maps ([gmap string _]); the [in]
    operator also sees the properties every object literal inherits from
    [Object.prototype].  Code that mutates an argument returns the final
    state of that object next to its result. *)

From Stdlib Require Import ZArith Floats Uint63.
From stdpp Require Import gmap strings list.

Set Warnings "-inexact-float".

(** ** The JavaScript runtime the file relies on *)
Module JS.

(** The own properties of [Object.prototype] (ECMAScript 2015, with the
    accessors of its annex B): every object literal inherits them, so
    [name in obj] holds for each of these names whatever [obj] contains. *)
Definition ObjectPrototypeKeys : list string :=
  [ "constructor"; "hasOwnProperty"; "isPrototypeOf"; "propertyIsEnumerable";
    "toLocaleString"; "toString"; "valueOf"; "__proto__";
    "__defineGetter__"; "__defineSetter__"; "__lookupGetter__";
    "__lookupSetter__" ].

Definition inherited (key : string) : bool :=
  bool_decide (key ∈ ObjectPrototypeKeys).

(** [key in obj]: an own property, or one found on the prototype. *)
Definition has_property {V} (key : string) (obj : gmap string V) : bool :=
  bool_decide (is_Some (obj !! key)) || inherited key.

(** What a coefficient table can hold under a key.  [Inherited name] is the
    member of [Object.prototype] (a function, or the prototype itself) that a
    read of [table[name]] returns for an inherited name; [Undefined] is the
    value [undefined] stored as a property. *)
Inductive Value :=
| Undefined
| Vector (v : list float)
| Inherited (name : string).

(** [table[name]] on a table of number arrays. *)
Definition get_vector (table : gmap string (list float)) (name : string) : Value :=
  match table !! name with
  | Some v => Vector v
  | None => if inherited name then Inherited name else Undefined
  end.

(** [o[i]] used as a number.  Reading an index of [undefined] raises a
    TypeError ([None]); a missing element is [undefined], which arithmetic
    turns into NaN; the members of [Object.prototype] have no indexed
    elements. *)
Definition index (o : option Value) (i : nat) : option float :=
  match o with
  | None | Some Undefined => None
  | Some (Vector v) => Some (nth i v nan)
  | Some (Inherited _) => Some nan
  end.

(** [obj[key]] of a table of numbers, used as a number. *)
Definition number_at (obj : gmap string float) (key : string) : float :=
  default nan (obj !! key).

(** [String(obj[key])] of a table of strings. *)
Definition string_at (obj : gmap string string) (key : string) : string :=
  default "undefined" (obj !! key).

(** An integral JavaScript number, from the natural number it counts. *)
Definition of_nat (n : nat) : float :=
  PrimFloat.of_uint63 (Uint63.of_Z (Z.of_nat n)).

(** [Math.max(x, y)]: NaN if either is NaN. *)
Definition Math_max (x y : float) : float :=
  if PrimFloat.is_nan x || PrimFloat.is_nan y then nan
  else if PrimFloat.ltb x y then y else x.

(** [Math.fround]: the nearest binary32 value (ties to even), as a double. *)
Definition fround (x : float) : float :=
  match Prim2SF x with
  | S754_finite s m e => SF2Prim (binary_round 24 128 s m e)
  | _ => x
  end.

(** [new Float32Array(n)] and the store [a[i] = x]: elements are kept in
    single precision, and a store outside the array is ignored. *)
Definition Float32Array (n : nat) : list float := replicate n 0%float.

Definition Float32Array_set (a : list float) (i : nat) (x : float) : list float :=
  <[i := fround x]> a.

(** [for (var i = 0; i < n; i++) body], over a body that may raise. *)
Definition for_loop {S} (n : nat) (body : nat -> S -> option S) (s : S) : option S :=
  foldl (fun acc i => acc ≫= body i) (Some s) (seq 0 n).

(** One turn of the loops that fill in missing keys: [d key] is stored under
    [key] unless [key in obj]. *)
Definition fill_step {V} (d : string -> V) (obj : gmap string V) (key : string)
    : gmap string V :=
  if negb (has_property key obj) then <[key := d key]> obj else obj.

(** [x < 0] and [0 <= x] on numbers; both are false of NaN. *)
Definition negative (x : float) : bool := PrimFloat.ltb x 0.
Definition nonNegative (x : float) : bool := PrimFloat.leb 0 x.

(** A number that is neither NaN, an infinity nor a zero. *)
Definition finiteNonZero (x : float) : bool :=
  PrimFloat.is_finite x && negb (PrimFloat.is_zero x).

(** Readings of an IEEE value in its specification form ([Prim2SF]). *)
Definition sf_sign (x : spec_float) : bool :=
  match x with
  | S754_nan => false
  | S754_zero s | S754_infinity s | S754_finite s _ _ => s
  end.

Definition sf_is_nan (x : spec_float) : bool :=
  match x with S754_nan => true | _ => false end.

Definition sf_is_zero (x : spec_float) : bool :=
  match x with S754_zero _ => true | _ => false end.

Definition sf_is_finite_nonzero (x : spec_float) : bool :=
  match x with S754_finite _ _ _ => true | _ => false end.

(** The double quote character, for the texts the code logs. *)
Definition dquote : string := String (Ascii.ascii_of_nat 34) EmptyString.

(** One admissible [Math.log].  ECMAScript fixes its value at NaN, negative
    numbers, zeros, one and infinity and leaves the rest to the
    implementation; the development is parametric in it, and this series
    (ln x = e ln 2 + 2 atanh ((m-1)/(m+1)) for x = m 2^e) is used to run
    examples. *)
Definition float_of_Z (z : Z) : float :=
  match z with
  | Z0 => 0%float
  | Zpos _ => PrimFloat.of_uint63 (Uint63.of_Z z)
  | Zneg _ => (- PrimFloat.of_uint63 (Uint63.of_Z (- z)))%float
  end.

Definition atanh_series (t : float) : float :=
  let t2 := (t * t)%float in
  (t * foldr (fun k acc => (1 / float_of_Z k + t2 * acc)%float) 0%float
         (map (fun i => (2 * Z.of_nat i + 1)%Z) (seq 0 20)))%float.

Definition sample_log (x : float) : float :=
  if PrimFloat.is_nan x || PrimFloat.ltb x 0 then nan
  else if PrimFloat.eqb x 0 then neg_infinity
  else if PrimFloat.eqb x infinity then infinity
  else if PrimFloat.eqb x 1 then 0%float
  else
    let '(m, e) := FloatOps.Z.frexp x in
    (float_of_Z e * 0.6931471805599453
     + 2 * atanh_series ((m - 1) / (m + 1)))%float.

End JS.

(** ** Constants of globals.js *)

(** Modelled from the spec: [globals.js] is not among the sources.  The spec
    fixes the number of reverb bands at 9 (the length of every absorption
    vector and of the air absorption table). *)
Definition NumReverbBands : nat := 9.

(** Modelled from the spec: the other constants [room.js] reads from
    [Globals].  The spec names them and gives no value, so they are the
    fields of a configuration every definition below takes: the averaging
    window of the reflections (first band, number of bands), the default
    speed of sound, and the constant the code divides by the speed of sound
    to obtain the acoustic constant k. *)
Record Globals := {
  DefaultReflectionsStartingBand : nat;
  DefaultReflectionsNumAveragingBands : nat;
  DefaultSpeedOfSound : float;
  TwentyFourLog10 : float
}.

(** A configuration to run examples with: a window of three bands from band
    4, sound at 343 m/s, and 24 ln 10 as a double. *)
Definition SampleGlobals : Globals := {|
  DefaultReflectionsStartingBand := 4;
  DefaultReflectionsNumAveragingBands := 3;
  DefaultSpeedOfSound := 343;
  TwentyFourLog10 := 55.262042231857096
|}.

(** ** room.js *)
Module Room.
Import JS.

Abbreviation Materials := (gmap string string).
Abbreviation Coefficients := (gmap string Value).
Abbreviation Dimensions := (gmap string float).

Definition MinVolume : float := 1e-4.

Definition AirAbsorbtionCoefficients : list float :=
  [0.0006; 0.0006; 0.0007; 0.0008; 0.0010; 0.0015; 0.0026; 0.0060; 0.0207]%float.

Definition WallTypes : list string :=
  ["left"; "right"; "front"; "back"; "ceiling"; "floor"].
Definition NumWalls : nat := length WallTypes.

Definition DimensionTypes : list string := ["width"; "height"; "depth"].
Definition NumDimensions : nat := length DimensionTypes.

Definition DefaultDimensions : Dimensions :=
  list_to_map [("width", 0%float); ("height", 0%float); ("depth", 0%float)].

Definition DefaultMaterials : Materials :=
  list_to_map
    [("left", "Transparent"); ("right", "Transparent");
     ("front", "Transparent"); ("back", "Transparent");
     ("floor", "Transparent"); ("ceiling", "Transparent")].

Definition MaterialCoefficients : gmap string (list float) :=
  list_to_map
  [("Transparent",
    [1.000; 1.000; 1.000; 1.000; 1.000; 1.000; 1.000; 1.000; 1.000]%float);
   ("AcousticCeilingTiles",
    [0.672; 0.675; 0.700; 0.660; 0.720; 0.920; 0.880; 0.750; 1.000]%float);
   ("BrickBare",
    [0.030; 0.030; 0.030; 0.030; 0.030; 0.040; 0.050; 0.070; 0.140]%float);
   ("BrickPainted",
    [0.006; 0.007; 0.010; 0.010; 0.020; 0.020; 0.020; 0.030; 0.060]%float);
   ("ConcreteBlockCoarse",
    [0.360; 0.360; 0.360; 0.440; 0.310; 0.290; 0.390; 0.250; 0.500]%float);
   ("ConcreteBlockPainted",
    [0.092; 0.090; 0.100; 0.050; 0.060; 0.070; 0.090; 0.080; 0.160]%float);
   ("CurtainHeavy",
    [0.073; 0.106; 0.140; 0.350; 0.550; 0.720; 0.700; 0.650; 1.000]%float);
   ("FiberGlassInsulation",
    [0.193; 0.220; 0.220; 0.820; 0.990; 0.990; 0.990; 0.990; 1.000]%float);
   ("GlassThin",
    [0.180; 0.169; 0.180; 0.060; 0.040; 0.030; 0.020; 0.020; 0.040]%float);
   ("GlassThick",
    [0.350; 0.350; 0.350; 0.250; 0.180; 0.120; 0.070; 0.040; 0.080]%float);
   ("Grass",
    [0.050; 0.050; 0.150; 0.250; 0.400; 0.550; 0.600; 0.600; 0.600]%float);
   ("LinoleumOnConcrete",
    [0.020; 0.020; 0.020; 0.030; 0.030; 0.030; 0.030; 0.020; 0.040]%float);
   ("Marble",
    [0.010; 0.010; 0.010; 0.010; 0.010; 0.010; 0.020; 0.020; 0.0400]%float);
   ("Metal",
    [0.030; 0.035; 0.040; 0.040; 0.050; 0.050; 0.050; 0.070; 0.090]%float);
   ("ParquetOnConcrete",
    [0.028; 0.030; 0.040; 0.040; 0.070; 0.060; 0.060; 0.070; 0.140]%float);
   ("PlasterRough",
    [0.017; 0.018; 0.020; 0.030; 0.040; 0.050; 0.040; 0.030; 0.060]%float);
   ("PlasterSmooth",
    [0.011; 0.012; 0.013; 0.015; 0.020; 0.030; 0.040; 0.050; 0.100]%float);
   ("PlywoodPanel",
    [0.400; 0.340; 0.280; 0.220; 0.170; 0.090; 0.100; 0.110; 0.220]%float);
   ("PolishedConcreteOrTile",
    [0.008; 0.008; 0.010; 0.010; 0.015; 0.020; 0.020; 0.020; 0.040]%float);
   ("Sheetrock",
    [0.290; 0.279; 0.290; 0.100; 0.050; 0.040; 0.070; 0.090; 0.180]%float);
   ("WaterOrIceSurface",
    [0.006; 0.006; 0.008; 0.008; 0.013; 0.015; 0.020; 0.025; 0.050]%float);
   ("WoodCeiling",
    [0.150; 0.147; 0.150; 0.110; 0.100; 0.070; 0.060; 0.070; 0.140]%float);
   ("WoodPanel",
    [0.280; 0.280; 0.280; 0.220; 0.170; 0.090; 0.100; 0.110; 0.220]%float);
   ("Uniform",
    [0.500; 0.500; 0.500; 0.500; 0.500; 0.500; 0.500; 0.500; 0.500]%float)].

(** [Room.MaterialCoefficients[Room.DefaultMaterials[key]]], the value both
    the resolver and [sanitizeCoefficients] store for a wall left at its
    default. *)
Definition defaultCoefficients (key : string) : Value :=
  let defaultMaterialForWall := string_at DefaultMaterials key in
  get_vector MaterialCoefficients defaultMaterialForWall.

(** *** getCoefficientsFromMaterials *)

(** [Utils.log] (utils.js is not among the sources) is modelled by the list
    of the texts logged, oldest first. *)
Definition Log := list string.

(** The second loop's texts, concatenated as the code does. *)
Definition notFoundMessage (material key defaultMaterialForWall : string) : string :=
  "Material " +:+ dquote +:+ material +:+ dquote +:+ " on Wall " +:+ dquote
  +:+ key +:+ dquote +:+ " not found. Using " +:+ dquote
  +:+ defaultMaterialForWall +:+ dquote +:+ ".".

Definition notDefinedMessage (key : string) : string :=
  "Wall " +:+ dquote +:+ key +:+ dquote
  +:+ " is not defined and will be ignored.".

(** What a call leaves behind: the coefficients it returns, the final state
    of the object its [materials] variable refers to (the caller's object,
    or [Room.DefaultMaterials] when the argument is undefined), and the
    texts it logged. *)
Record Resolved := {
  coefficients : Coefficients;
  materials_after : Materials;
  logged : Log
}.

(** First loop: every wall starts at its default material's vector. *)
Definition initCoefficients : Coefficients :=
  foldl (fun coefficients key => <[key := defaultCoefficients key]> coefficients)
        ∅ WallTypes.

(** Second block: ['walls'] is written over the side walls, in the object
    [materials] itself. *)
Definition expandWalls (materials : Materials) : Materials :=
  if has_property "walls" materials then
    foldl (fun materials key =>
             if negb (String.eqb key "ceiling") && negb (String.eqb key "floor")
             then match materials !! "walls" with
                  | Some walls => <[key := walls]> materials
                  | None => materials
                  end
             else materials)
          materials WallTypes
  else materials.

(** Third loop, one wall: the coefficients and the log after it. *)
Definition assignWall (materials : Materials)
    (st : Coefficients * Log) (key : string) : Coefficients * Log :=
  let '(coefficients, log) := st in
  if has_property key materials then
    let defaultMaterialForWall := string_at DefaultMaterials key in
    if has_property (string_at materials key) MaterialCoefficients then
      (<[key := get_vector MaterialCoefficients (string_at materials key)]>
         coefficients, log)
    else
      (coefficients,
       log ++ [notFoundMessage (string_at materials key) key
                 defaultMaterialForWall])
  else
    (coefficients, log ++ [notDefinedMessage key]).

Definition getCoefficientsFromMaterials (materials : option Materials) : Resolved :=
  let coefficients := initCoefficients in
  let materials := default DefaultMaterials materials in
  let materials := expandWalls materials in
  let '(coefficients, log) :=
    foldl (assignWall materials) (coefficients, []) WallTypes in
  {| coefficients := coefficients; materials_after := materials; logged := log |}.

(** The side walls, those the second block overwrites. *)
Definition sideWalls : list string := ["left"; "right"; "front"; "back"].

Definition isSideWall (key : string) : bool :=
  negb (String.eqb key "ceiling") && negb (String.eqb key "floor").

(** What the third loop stores for a wall ([None]: nothing, the default
    stays), and what it logs for it ([None]: nothing). *)
Definition resolveWall (materials : Materials) (key : string) : option Value :=
  match materials !! key with
  | Some name =>
      if has_property name MaterialCoefficients
      then Some (get_vector MaterialCoefficients name) else None
  | None => None
  end.

Definition wallMessage (materials : Materials) (key : string) : option string :=
  match materials !! key with
  | Some name =>
      if has_property name MaterialCoefficients then None
      else Some (notFoundMessage name key (string_at DefaultMaterials key))
  | None => Some (notDefinedMessage key)
  end.

(** *** The sanitizers

    Both write the missing keys into the object they are given and return
    that same object: the result below is also the caller's object after
    the call. *)
Definition sanitizeCoefficients (coefficients : option Coefficients) : Coefficients :=
  let coefficients := default ∅ coefficients in
  foldl (fun coefficients key =>
           if negb (has_property key coefficients)
           then <[key := defaultCoefficients key]> coefficients
           else coefficients)
        coefficients WallTypes.

Definition sanitizeDimensions (dimensions : option Dimensions) : Dimensions :=
  let dimensions := default ∅ dimensions in
  foldl (fun dimensions key =>
           if negb (has_property key dimensions)
           then <[key := number_at DefaultDimensions key]> dimensions
           else dimensions)
        dimensions DimensionTypes.

(** No wall of the set holds [undefined] (reading a band of such a wall
    raises a TypeError).  Sets of arrays, and the sets the resolver returns,
    are of this kind. *)
Definition noUndefined (coefficients : option Coefficients) : bool :=
  forallb (fun key => match default ∅ coefficients !! key with
                      | Some Undefined => false
                      | _ => true
                      end) WallTypes.

(** [coefficients[key][i]] as a number, where the read does not raise. *)
Definition coeff (coefficients : Coefficients) (key : string) (i : nat) : float :=
  default nan (index (coefficients !! key) i).

(** The room's geometry, from the sanitized dimensions. *)
Definition width (dimensions : option Dimensions) : float :=
  number_at (sanitizeDimensions dimensions) "width".
Definition height (dimensions : option Dimensions) : float :=
  number_at (sanitizeDimensions dimensions) "height".
Definition depth (dimensions : option Dimensions) : float :=
  number_at (sanitizeDimensions dimensions) "depth".

Definition roomVolume (dimensions : option Dimensions) : float :=
  (width dimensions * height dimensions * depth dimensions)%float.
Definition leftRightArea (dimensions : option Dimensions) : float :=
  (width dimensions * height dimensions)%float.
Definition floorCeilingArea (dimensions : option Dimensions) : float :=
  (width dimensions * depth dimensions)%float.
Definition frontBackArea (dimensions : option Dimensions) : float :=
  (depth dimensions * height dimensions)%float.
Definition totalArea (dimensions : option Dimensions) : float :=
  (2 * (leftRightArea dimensions + floorCeilingArea dimensions
        + frontBackArea dimensions))%float.

(** An odd number of the three numbers is negative, and the others are
    non-negative (none is NaN). *)
Definition oddNegative (w h d : float) : bool :=
  (negative w || nonNegative w) && (negative h || nonNegative h)
  && (negative d || nonNegative d)
  && xorb (xorb (negative w) (negative h)) (negative d).

Section WithGlobals.

Variable G : Globals.
(** [Math.log], left to the JavaScript implementation. *)
Variable Math_log : float -> float.

(** *** computeReflectionCoefficients *)

Definition initReflectionCoefficients : gmap string float :=
  list_to_map [("left", 0%float); ("right", 0%float); ("front", 0%float);
               ("back", 0%float); ("floor", 0%float); ("ceiling", 0%float)].

(** The body of the loop over the walls, for the wall [key]. *)
Definition reflectWall (coefficients : Coefficients)
    (reflectionCoefficients : gmap string float) (key : string)
    : option (gmap string float) :=
  reflectionCoefficients ←
    for_loop (DefaultReflectionsNumAveragingBands G)
      (fun j reflectionCoefficients =>
         let bandIndex := j + DefaultReflectionsStartingBand G in
         x ← index (coefficients !! key) bandIndex;
         Some (<[key := (number_at reflectionCoefficients key + x)%float]>
                 reflectionCoefficients))
      reflectionCoefficients;
  let reflectionCoefficients :=
    <[key := (number_at reflectionCoefficients key
              / of_nat (DefaultReflectionsNumAveragingBands G))%float]>
      reflectionCoefficients in
  Some (<[key := PrimFloat.sqrt (1 - number_at reflectionCoefficients key)%float]>
          reflectionCoefficients).

Definition computeReflectionCoefficients (coefficients : option Coefficients)
    : option (gmap string float) :=
  let reflectionCoefficients := initReflectionCoefficients in
  let coefficients := sanitizeCoefficients coefficients in
  foldl (fun acc key => acc ≫= fun rc => reflectWall coefficients rc key)
        (Some reflectionCoefficients) WallTypes.

(** *** computeRT60Secs *)

(** The body of the loop over the bands, for band [i]. *)
Definition rt60Band (coefficients : Coefficients)
    (k volume leftRightArea floorCeilingArea frontBackArea totalArea : float)
    (i : nat) (RT60Secs : list float) : option (list float) :=
  left ← index (coefficients !! "left") i;
  right ← index (coefficients !! "right") i;
  floor ← index (coefficients !! "floor") i;
  ceiling ← index (coefficients !! "ceiling") i;
  front ← index (coefficients !! "front") i;
  back ← index (coefficients !! "back") i;
  let absorbtionArea :=
    ((left + right) * leftRightArea
     + (floor + ceiling) * floorCeilingArea
     + (front + back) * frontBackArea)%float in
  let meanAbsorbtionArea := (absorbtionArea / totalArea)%float in
  let air := nth i AirAbsorbtionCoefficients nan in
  if PrimFloat.leb meanAbsorbtionArea 0.5 then
    Some (Float32Array_set RT60Secs i
            ((k * volume) / (absorbtionArea + (4 * air) * volume))%float)
  else
    Some (Float32Array_set RT60Secs i
            ((k * volume)
             / ((- totalArea) * Math_log (1 - meanAbsorbtionArea)
                + (4 * air) * volume))%float).

Definition computeRT60Secs (dimensions : option Dimensions)
    (coefficients : option Coefficients) (speedOfSound : option float)
    : option (list float) :=
  let RT60Secs := Float32Array NumReverbBands in
  let dimensions := sanitizeDimensions dimensions in
  let coefficients := sanitizeCoefficients coefficients in
  let speedOfSound := default (DefaultSpeedOfSound G) speedOfSound in
  let k := (TwentyFourLog10 G / speedOfSound)%float in
  let volume :=
    (number_at dimensions "width" * number_at dimensions "height"
     * number_at dimensions "depth")%float in
  if PrimFloat.ltb volume MinVolume then Some RT60Secs
  else
    let leftRightArea :=
      (number_at dimensions "width" * number_at dimensions "height")%float in
    let floorCeilingArea :=
      (number_at dimensions "width" * number_at dimensions "depth")%float in
    let frontBackArea :=
      (number_at dimensions "depth" * number_at dimensions "height")%float in
    let totalArea :=
      (2 * (leftRightArea + floorCeilingArea + frontBackArea))%float in
    for_loop NumReverbBands
      (rt60Band coefficients k volume leftRightArea floorCeilingArea
         frontBackArea totalArea)
      RT60Secs.

(** *** The specification's formulas

    Written after the specification's sections 4.3 and 4.4, to be compared
    with what the code computes. *)

(** Effective absorptive area and mean absorption of band [i]. *)
Definition absorptionArea (dimensions : option Dimensions)
    (coefficients : Coefficients) (i : nat) : float :=
  ((coeff coefficients "left" i + coeff coefficients "right" i)
     * leftRightArea dimensions
   + (coeff coefficients "floor" i + coeff coefficients "ceiling" i)
     * floorCeilingArea dimensions
   + (coeff coefficients "front" i + coeff coefficients "back" i)
     * frontBackArea dimensions)%float.

Definition meanAbsorption (dimensions : option Dimensions)
    (coefficients : Coefficients) (i : nat) : float :=
  (absorptionArea dimensions coefficients i / totalArea dimensions)%float.

Definition airAbsorption (i : nat) : float := nth i AirAbsorbtionCoefficients nan.

(** k = TwentyFourLog10 / speedOfSound. *)
Definition acousticConstant (speedOfSound : option float) : float :=
  (TwentyFourLog10 G / default (DefaultSpeedOfSound G) speedOfSound)%float.

Definition SabineRT60 (k volume absorptionArea air : float) : float :=
  (k * volume / (absorptionArea + 4 * air * volume))%float.

Definition EyringRT60 (k volume totalArea meanAbsorption air : float) : float :=
  (k * volume
   / (- totalArea * Math_log (1 - meanAbsorption) + 4 * air * volume))%float.

(** The value of band [i]: Sabine up to a mean absorption of 0.5
    (included), Eyring above. *)
Definition bandRT60 (dimensions : option Dimensions)
    (coefficients : Coefficients) (speedOfSound : option float) (i : nat) : float :=
  let k := acousticConstant speedOfSound in
  if PrimFloat.leb (meanAbsorption dimensions coefficients i) 0.5
  then SabineRT60 k (roomVolume dimensions)
         (absorptionArea dimensions coefficients i) (airAbsorption i)
  else EyringRT60 k (roomVolume dimensions) (totalArea dimensions)
         (meanAbsorption dimensions coefficients i) (airAbsorption i).

(** The arithmetic mean of a wall's absorption over the averaging window,
    summed from the first band of the window on. *)
Definition windowMean (coefficients : Coefficients) (key : string) : float :=
  (foldl (fun sum j =>
            (sum + coeff coefficients key
                     (j + DefaultReflectionsStartingBand G))%float)
         0%float (seq 0 (DefaultReflectionsNumAveragingBands G))
   / of_nat (DefaultReflectionsNumAveragingBands G))%float.

(** What the loop over the walls leaves in a wall's entry that held [x0]
    before: the window's bands added to it, divided by their number, and
    turned into a reflectance. *)
Definition wallValue (coefficients : option Coefficients) (key : string)
    (x0 : float) : float :=
  PrimFloat.sqrt
    (1 - foldl (fun sum j =>
                  (sum + coeff (sanitizeCoefficients coefficients) key
                           (j + DefaultReflectionsStartingBand G))%float)
               x0 (seq 0 (DefaultReflectionsNumAveragingBands G))
         / of_nat (DefaultReflectionsNumAveragingBands G))%float.

(** A set whose six walls absorb nothing in any band. *)
Definition fullyReflective : Coefficients :=
  list_to_map (map (fun key => (key, Vector (replicate NumReverbBands 0%float)))
                 WallTypes).

(** The reflectance the specification gives for a mean absorption [a]. *)
Definition clampedReflectance (a : float) : float :=
  PrimFloat.sqrt (Math_max 0 (1 - a)).

(** The averaging window lies within the bands and is not empty. *)
Definition windowInBands : Prop :=
  1 <= DefaultReflectionsNumAveragingBands G
  /\ DefaultReflectionsStartingBand G + DefaultReflectionsNumAveragingBands G
       <= NumReverbBands.

End WithGlobals.

(** The reflectance of a wall whose absorption vector is [v], for a window
    of [count] bands from band [start]. *)
Definition reflectanceOf (v : list float) (start count : nat) : float :=
  PrimFloat.sqrt
    (1 - foldl (fun sum j => (sum + nth (j + start) v nan)%float) 0%float
           (seq 0 count)
         / of_nat count)%float.

Definition inUnitInterval (x : float) : bool :=
  PrimFloat.leb 0 x && PrimFloat.leb x 1.

(** The windows that lie within the bands and are not empty, as pairs of a
    first band and a number of bands. *)
Definition windows : list (nat * nat) :=
  flat_map (fun count => map (fun start => (start, count))
                           (seq 0 (S NumReverbBands - count)))
           (seq 1 NumReverbBands).

(** The entries of [Room.MaterialCoefficients], as a list. *)
Definition MaterialList : list (string * list float) :=
  Eval vm_compute in map_to_list MaterialCoefficients.

(** Every material of the library, under every such window, reflects a
    fraction between 0 and 1. *)
Definition libraryReflectancesInRange : bool :=
  forallb (fun entry : string * list float =>
             forallb (fun w : nat * nat =>
                        inUnitInterval (reflectanceOf entry.2 w.1 w.2))
                     windows)
          MaterialList.

(** The profile of a room that is skipped: nine zeros. *)
Definition zeroProfile : list float := [0; 0; 0; 0; 0; 0; 0; 0; 0]%float.

(** *** Inputs the examples below run the code on *)

(** [{walls: 'BrickBare'}] *)
Definition wallsOnly : Materials := {[ "walls" := "BrickBare" ]}.

(** [{left: 'toString'}]: a material name that is no material, and that
    every object inherits from [Object.prototype]. *)
Definition inheritedName : Materials := {[ "left" := "toString" ]}.

(** [{left: 'Velvet'}]: a material name that is no material. *)
Definition unknownName : Materials := {[ "left" := "Velvet" ]}.

(** A room of 4 m by 3 m by 5 m. *)
Definition room435 : Dimensions :=
  {[ "width" := 4%float; "height" := 3%float; "depth" := 5%float ]}.

(** A room of one cubic centimetre, and one of exactly [MinVolume]. *)
Definition tinyRoom : Dimensions :=
  {[ "width" := 0.01%float; "height" := 0.01%float; "depth" := 0.01%float ]}.
Definition thresholdRoom : Dimensions :=
  {[ "width" := 1e-4%float; "height" := 1%float; "depth" := 1%float ]}.

(** A negative width; and a negative width whose product with the height
    overflows, next to a depth of zero. *)
Definition mirroredRoom : Dimensions :=
  {[ "width" := (-4)%float; "height" := 3%float; "depth" := 5%float ]}.
Definition overflowRoom : Dimensions :=
  {[ "width" := (-1e200)%float; "height" := 1e200%float; "depth" := 0%float ]}.

(** Six walls of the material Uniform (0.5 in every band). *)
Definition uniformWalls : Coefficients :=
  list_to_map (map (fun key => (key, Vector (replicate NumReverbBands 0.5%float)))
                 WallTypes).

(** A left wall that absorbs twice the incident energy in every band. *)
Definition overAbsorbing : Coefficients :=
  {[ "left" := Vector (replicate NumReverbBands 2%float) ]}.

(** A set whose left wall was stored as [undefined]. *)
Definition undefinedLeft : Coefficients := {[ "left" := Undefined ]}.

End Room.

(** * Properties *)

Import JS Room.

(** ** IEEE facts the proofs use *)

Lemma SFcompare_antisym x y c :
  SFcompare x y = Some c -> SFcompare y x = Some (CompOpp c).
Proof.
  destruct x as [sx | sx | | sx mx ex], y as [sy | sy | | sy my ey];
    cbn [SFcompare]; try discriminate;
    try (destruct sx); try (destruct sy);
    intros [= <-]; try reflexivity.
  - f_equal. rewrite (Z.compare_antisym ex ey).
    destruct (ex ?= ey)%Z; cbn; try reflexivity.
    pose proof (Pos.compare_cont_antisym mx my Eq) as H. cbn in H.
    rewrite <- H. by destruct (Pos.compare_cont Eq mx my).
  - f_equal. rewrite (Z.compare_antisym ex ey).
    destruct (ex ?= ey)%Z; cbn; try reflexivity.
    pose proof (Pos.compare_cont_antisym mx my Eq) as H. cbn in H.
    rewrite <- H. by destruct (Pos.compare_cont Eq mx my).
Qed.


Lemma eqb_ltb_false (x y : float) :
  PrimFloat.eqb x y = true -> PrimFloat.ltb x y = false.
Proof.
  rewrite FloatAxioms.eqb_spec, FloatAxioms.ltb_spec. unfold SFeqb, SFltb.
  by destruct (SFcompare (Prim2SF x) (Prim2SF y)) as [[] |].
Qed.

Lemma ltb_leb_false (x y : float) :
  PrimFloat.ltb x y = true -> PrimFloat.leb y x = false.
Proof.
  rewrite FloatAxioms.leb_spec, FloatAxioms.ltb_spec. unfold SFleb, SFltb.
  destruct (SFcompare (Prim2SF x) (Prim2SF y)) as [c |] eqn:E; [| discriminate].
  rewrite (SFcompare_antisym _ _ _ E). by destruct c.
Qed.

(** Rounding keeps the sign it is given. *)
Lemma binary_round_aux_sign p em s m e l :
  binary_round_aux p em s m e l = S754_nan
  \/ (sf_is_nan (binary_round_aux p em s m e l) = false
      /\ sf_sign (binary_round_aux p em s m e l) = s).
Proof.
  unfold binary_round_aux.
  destruct (shr_fexp p em m e l) as [mrs' e'].
  destruct (shr_fexp p em _ e' loc_Exact) as [mrs'' e''].
  destruct (shr_m mrs''); [by right | | by left].
  destruct (e'' <=? em - p)%Z; by right.
Qed.

(** A product is NaN, a zero, or carries the exclusive or of the signs of
    two factors neither of which is a zero. *)
Lemma SFmul_cases p em x y :
  SFmul p em x y = S754_nan
  \/ sf_is_zero (SFmul p em x y) = true
  \/ (sf_is_nan x = false /\ sf_is_zero x = false
      /\ sf_is_nan y = false /\ sf_is_zero y = false
      /\ sf_is_nan (SFmul p em x y) = false
      /\ sf_sign (SFmul p em x y) = xorb (sf_sign x) (sf_sign y)).
Proof.
  destruct x as [sx | sx | | sx mx ex], y as [sy | sy | | sy my ey];
    cbn [SFmul]; try (by left); try (right; by left);
    try (right; right; by repeat split).
  destruct (binary_round_aux_sign p em (xorb sx sy) (Z.pos (mx * my)) (ex + ey)
              loc_Exact) as [-> | [H1 H2]]; [by left |].
  right; right. by repeat split.
Qed.

Lemma negative_SF x :
  negative x = true ->
  sf_is_nan (Prim2SF x) = false /\ sf_is_zero (Prim2SF x) = false
  /\ sf_sign (Prim2SF x) = true.
Proof.
  unfold negative. rewrite FloatAxioms.ltb_spec.
  change (Prim2SF 0) with (S754_zero false).
  by destruct (Prim2SF x) as [[] | [] | | [] ? ?].
Qed.

Lemma not_negative_SF x :
  negative x = false -> nonNegative x = true ->
  sf_is_nan (Prim2SF x) = false
  /\ (sf_is_zero (Prim2SF x) = true \/ sf_sign (Prim2SF x) = false).
Proof.
  unfold negative, nonNegative.
  rewrite FloatAxioms.ltb_spec, FloatAxioms.leb_spec.
  change (Prim2SF 0) with (S754_zero false).
  destruct (Prim2SF x) as [[] | [] | | [] ? ?]; cbn; intros; try discriminate;
    split; auto.
Qed.

Lemma is_nan_SF x : PrimFloat.is_nan x = false -> sf_is_nan (Prim2SF x) = false.
Proof.
  unfold PrimFloat.is_nan. rewrite FloatAxioms.eqb_spec.
  by destruct (Prim2SF x).
Qed.

Lemma MinVolume_SF : exists m e, Prim2SF MinVolume = S754_finite false m e.
Proof. vm_compute. eauto. Qed.

Lemma below_MinVolume x :
  sf_is_nan (Prim2SF x) = false ->
  sf_is_zero (Prim2SF x) = true \/ sf_sign (Prim2SF x) = true ->
  PrimFloat.ltb x MinVolume = true.
Proof.
  rewrite FloatAxioms.ltb_spec. destruct MinVolume_SF as (m & e & ->).
  destruct (Prim2SF x) as [[] | [] | | [] ? ?]; cbn; intros ? [? | ?];
    done.
Qed.

Lemma odd_negative_product w h d :
  oddNegative w h d = true ->
  PrimFloat.is_nan (w * h * d) = false ->
  PrimFloat.ltb (w * h * d) MinVolume = true.
Proof.
  intros Hodd Hnan. apply is_nan_SF in Hnan.
  apply below_MinVolume; [done |].
  revert Hnan. rewrite !FloatAxioms.mul_spec. unfold SF64mul.
  set (W := Prim2SF w). set (H := Prim2SF h). set (D := Prim2SF d).
  assert (HW : negative w = true -> sf_is_zero W = false /\ sf_sign W = true)
    by (intros ?%negative_SF; tauto).
  assert (HH : negative h = true -> sf_is_zero H = false /\ sf_sign H = true)
    by (intros ?%negative_SF; tauto).
  assert (HD : negative d = true -> sf_is_zero D = false /\ sf_sign D = true)
    by (intros ?%negative_SF; tauto).
  assert (HW' : negative w = false -> nonNegative w = true ->
                sf_is_zero W = true \/ sf_sign W = false)
    by (intros ? ?; by apply not_negative_SF).
  assert (HH' : negative h = false -> nonNegative h = true ->
                sf_is_zero H = true \/ sf_sign H = false)
    by (intros ? ?; by apply not_negative_SF).
  assert (HD' : negative d = false -> nonNegative d = true ->
                sf_is_zero D = true \/ sf_sign D = false)
    by (intros ? ?; by apply not_negative_SF).
  clearbody W H D.
  destruct (SFmul_cases prec emax (SFmul prec emax W H) D)
    as [-> | [Hz | (Hn1 & Hz1 & Hn2 & Hz2 & Hn3 & Hs)]]; [done | by left |].
  intros _. right. rewrite Hs.
  destruct (SFmul_cases prec emax W H)
    as [E | [Hz | (Hn4 & Hz4 & Hn5 & Hz5 & Hn6 & Hs')]];
    [by rewrite E in Hn1 | congruence |].
  rewrite Hs'. clear Hs Hs'.
  unfold oddNegative in Hodd.
  destruct (negative w), (negative h), (negative d); cbn in Hodd;
    try discriminate;
    repeat match goal with
    | H : true = true -> _ |- _ => specialize (H eq_refl)
    | H : false = false -> _ |- _ => specialize (H eq_refl)
    | H : true = false -> _ |- _ => clear H
    | H : false = true -> _ |- _ => clear H
    end.
  all: repeat (apply andb_prop in Hodd as [Hodd ?]).
  all: repeat match goal with
    | H : ?a = true -> _, H' : ?a = true |- _ => specialize (H H')
    | H : _ /\ _ |- _ => destruct H
    | H : _ \/ _ |- _ => destruct H; [congruence |]
    end.
  all: by repeat match goal with H : sf_sign _ = _ |- _ => rewrite H; clear H end.
Qed.

Lemma SFcompare_refl x : sf_is_nan x = false -> SFcompare x x = Some Eq.
Proof.
  destruct x as [[] | [] | | [] m e]; cbn; try done; intros _;
    rewrite Z.compare_refl, Pos.compare_cont_refl; done.
Qed.

Lemma SF_is_nan x : sf_is_nan (Prim2SF x) = false -> PrimFloat.is_nan x = false.
Proof.
  intros H. unfold PrimFloat.is_nan. rewrite FloatAxioms.eqb_spec.
  unfold SFeqb. by rewrite SFcompare_refl.
Qed.

Lemma shr_1_nonneg mrs : (0 <= shr_m mrs)%Z -> (0 <= shr_m (shr_1 mrs))%Z.
Proof.
  destruct mrs as [m r s]. cbn.
  destruct m as [| [p | p |] | p]; cbn; lia.
Qed.

Lemma iter_shr_1_nonneg p mrs :
  (0 <= shr_m mrs)%Z -> (0 <= shr_m (SpecFloat.iter_pos shr_1 p mrs))%Z.
Proof.
  revert mrs. induction p as [p IH | p IH |]; intros mrs H; cbn.
  - apply IH, IH. by apply shr_1_nonneg.
  - by apply IH, IH.
  - by apply shr_1_nonneg.
Qed.

Lemma shr_fexp_nonneg p em m e l :
  (0 <= m)%Z -> (0 <= shr_m (fst (shr_fexp p em m e l)))%Z.
Proof.
  intros H. unfold shr_fexp, shr.
  assert (H0 : (0 <= shr_m (shr_record_of_loc m l))%Z)
    by (by destruct l as [| []]).
  destruct (fexp p em (Zdigits2 m + e) - e)%Z; cbn [fst]; try done.
  by apply iter_shr_1_nonneg.
Qed.

Lemma round_nearest_even_nonneg m l :
  (0 <= m)%Z -> (0 <= round_nearest_even m l)%Z.
Proof.
  intros H. destruct l as [| []]; cbn; try done; [| lia].
  destruct (Z.even m); lia.
Qed.

Lemma binary_round_aux_not_nan p em s m e l :
  (0 <= m)%Z -> sf_is_nan (binary_round_aux p em s m e l) = false.
Proof.
  intros H. unfold binary_round_aux.
  pose proof (shr_fexp_nonneg p em m e l H) as H1.
  destruct (shr_fexp p em m e l) as [mrs' e']. cbn [fst] in H1.
  pose proof (shr_fexp_nonneg p em _ e' loc_Exact
                (round_nearest_even_nonneg _ (loc_of_shr_record mrs') H1)) as H2.
  destruct (shr_fexp p em _ e' loc_Exact) as [mrs'' e'']. cbn [fst] in H2.
  destruct (shr_m mrs''); [done | | lia].
  by destruct (e'' <=? em - p)%Z.
Qed.

Lemma finiteNonZero_SF x :
  finiteNonZero x = true -> sf_is_finite_nonzero (Prim2SF x) = true.
Proof.
  unfold finiteNonZero, PrimFloat.is_finite, PrimFloat.is_zero,
    PrimFloat.is_infinity, PrimFloat.is_nan.
  rewrite !FloatAxioms.eqb_spec, FloatAxioms.abs_spec.
  change (Prim2SF zero) with (S754_zero false).
  change (Prim2SF infinity) with (S754_infinity false).
  by destruct (Prim2SF x) as [[] | [] | | [] ? ?].
Qed.

Lemma finite_product_not_nan w h d :
  finiteNonZero w = true -> finiteNonZero h = true -> finiteNonZero d = true ->
  PrimFloat.is_nan (w * h * d) = false.
Proof.
  intros Hw%finiteNonZero_SF Hh%finiteNonZero_SF Hd%finiteNonZero_SF.
  apply SF_is_nan. rewrite !FloatAxioms.mul_spec. unfold SF64mul.
  destruct (Prim2SF w) as [| | | sw mw ew]; try discriminate.
  destruct (Prim2SF h) as [| | | sh mh eh]; try discriminate.
  destruct (Prim2SF d) as [| | | sd md ed]; try discriminate.
  cbn [SFmul].
  pose proof (binary_round_aux_not_nan prec emax (xorb sw sh)
                (Z.pos (mw * mh)) (ew + eh) loc_Exact ltac:(lia)) as H.
  destruct (binary_round_aux prec emax (xorb sw sh) _ _ _); try done.
  apply binary_round_aux_not_nan. lia.
Qed.

(** ** Membership tests and the sanitizers *)

Lemma has_property_own {V} (key : string) (obj : gmap string V) :
  inherited key = false ->
  has_property key obj = bool_decide (is_Some (obj !! key)).
Proof. intros H. unfold has_property. rewrite H. apply orb_false_r. Qed.

Lemma wall_not_inherited key : key ∈ WallTypes -> inherited key = false.
Proof.
  intros H. unfold WallTypes in H.
  repeat (apply elem_of_cons in H as [-> | H]; [reflexivity |]).
  by apply elem_of_nil in H.
Qed.

Lemma dimension_not_inherited key : key ∈ DimensionTypes -> inherited key = false.
Proof.
  intros H. unfold DimensionTypes in H.
  repeat (apply elem_of_cons in H as [-> | H]; [reflexivity |]).
  by apply elem_of_nil in H.
Qed.

Lemma member_tail (key k : string) (keys : list string) :
  k <> key ->
  bool_decide (key ∈ k :: keys) = bool_decide (key ∈ keys).
Proof.
  intros Hne. apply bool_decide_ext. rewrite elem_of_cons.
  split; [intros [? | ?]; [congruence | done] | by right].
Qed.

Section Fill.
Context {V : Type} (d : string -> V).

Lemma fill_lookup (keys : list string) (obj : gmap string V) (key : string) :
  Forall (fun k => inherited k = false) keys ->
  foldl (fill_step d) obj keys !! key =
    match obj !! key with
    | Some v => Some v
    | None => if bool_decide (key ∈ keys) then Some (d key) else None
    end.
Proof.
  intros Hk. revert obj. induction Hk as [| k keys Hk _ IH]; intros obj; simpl.
  - by destruct (obj !! key).
  - rewrite IH. clear IH. unfold fill_step. rewrite has_property_own by done.
    destruct (obj !! k) as [vk |] eqn:Ek; simpl.
    + destruct (obj !! key) as [v |] eqn:E; [done |].
      assert (k <> key) by congruence.
      by rewrite (member_tail key k keys).
    + destruct (decide (k = key)) as [-> | Hne].
      * rewrite lookup_insert_eq, Ek.
        by rewrite bool_decide_eq_true_2 by apply list_elem_of_here.
      * rewrite lookup_insert_ne by done.
        destruct (obj !! key); [done |].
        by rewrite (member_tail key k keys).
Qed.
End Fill.

Lemma sanitizeCoefficients_lookup (c : option Coefficients) key :
  sanitizeCoefficients c !! key =
    match default ∅ c !! key with
    | Some v => Some v
    | None => if bool_decide (key ∈ WallTypes) then Some (defaultCoefficients key) else None
    end.
Proof.
  unfold sanitizeCoefficients.
  apply (fill_lookup defaultCoefficients).
  apply Forall_forall. intros. by apply wall_not_inherited.
Qed.

Lemma sanitizeDimensions_lookup (dims : option Dimensions) key :
  sanitizeDimensions dims !! key =
    match default ∅ dims !! key with
    | Some v => Some v
    | None => if bool_decide (key ∈ DimensionTypes) then Some (number_at DefaultDimensions key) else None
    end.
Proof.
  unfold sanitizeDimensions.
  apply (fill_lookup (number_at DefaultDimensions)).
  apply Forall_forall. intros. by apply dimension_not_inherited.
Qed.

Lemma defaultCoefficients_wall key :
  key ∈ WallTypes ->
  defaultCoefficients key = Vector [1; 1; 1; 1; 1; 1; 1; 1; 1]%float.
Proof.
  intros H. unfold WallTypes in H.
  repeat (apply elem_of_cons in H as [-> | H]; [by vm_compute |]).
  by apply elem_of_nil in H.
Qed.

(** C8. [sanitizeCoefficients] is idempotent: for every input, absent and
    partial sets included, sanitizing the sanitized set changes nothing. *)
Theorem sanitizeCoefficients_idempotent (c : option Coefficients) :
  sanitizeCoefficients (Some (sanitizeCoefficients c)) = sanitizeCoefficients c.
Proof.
  apply map_eq. intros key.
  rewrite (sanitizeCoefficients_lookup (Some _)).
  change (default ∅ (Some (sanitizeCoefficients c))) with (sanitizeCoefficients c).
  destruct (sanitizeCoefficients c !! key) as [v |] eqn:E; [reflexivity |].
  rewrite sanitizeCoefficients_lookup in E.
  destruct (default ∅ c !! key); [discriminate |].
  destruct (bool_decide (key ∈ WallTypes)); [discriminate | reflexivity].
Qed.

(** ** The resolver *)

Lemma assignWall_spec (m : Materials) c log key :
  inherited key = false ->
  assignWall m (c, log) key =
    (match resolveWall m key with Some v => <[key := v]> c | None => c end,
     log ++ option_list (wallMessage m key)).
Proof.
  intros Hk. unfold assignWall, resolveWall, wallMessage, string_at.
  rewrite has_property_own by done.
  destruct (m !! key) as [name |] eqn:E.
  - rewrite bool_decide_eq_true_2 by (by eexists).
    change (default "undefined" (Some name)) with name.
    destruct (has_property name MaterialCoefficients).
    + by rewrite app_nil_r.
    + reflexivity.
  - rewrite bool_decide_eq_false_2 by (by intros [? ?]). reflexivity.
Qed.

Lemma assignWall_fold (m : Materials) (keys : list string) c log :
  Forall (fun k => inherited k = false) keys ->
  (forall key,
     (foldl (assignWall m) (c, log) keys).1 !! key =
       if bool_decide (key ∈ keys)
       then match resolveWall m key with Some v => Some v | None => c !! key end
       else c !! key)
  /\ (foldl (assignWall m) (c, log) keys).2 = log ++ omap (wallMessage m) keys.
Proof.
  intros Hk. revert c log.
  induction Hk as [| k keys Hk _ IH]; intros c log.
  - split; [| by rewrite app_nil_r]. intros key.
    rewrite bool_decide_eq_false_2; [done | apply not_elem_of_nil].
  - cbn [foldl]. rewrite assignWall_spec by done.
    destruct (IH (match resolveWall m k with Some v => <[k := v]> c | None => c end)
                 (log ++ option_list (wallMessage m k))) as [IH1 IH2].
    split.
    + intros key. etrans; [apply IH1 |].
      destruct (decide (key = k)) as [-> | Hne].
      * rewrite (bool_decide_eq_true_2 (k ∈ k :: keys)) by apply list_elem_of_here.
        destruct (resolveWall m k) as [v |] eqn:E.
        -- rewrite lookup_insert_eq. by destruct (bool_decide (k ∈ keys)).
        -- by destruct (bool_decide (k ∈ keys)).
      * assert (Hl : (match resolveWall m k with
                      | Some v => <[k := v]> c | None => c end) !! key = c !! key).
        { destruct (resolveWall m k); [by rewrite lookup_insert_ne | done]. }
        rewrite Hl.
        destruct (decide (key ∈ keys)) as [Hin | Hin].
        -- rewrite !bool_decide_eq_true_2; [done | by apply list_elem_of_further | done].
        -- rewrite !bool_decide_eq_false_2; [done | | done].
           intros [? | ?]%elem_of_cons; congruence.
    + etrans; [exact IH2 |]. rewrite <- app_assoc. f_equal. cbn [omap list_omap].
      by destruct (wallMessage m k).
Qed.

Lemma initCoefficients_lookup key :
  initCoefficients !! key =
    if bool_decide (key ∈ WallTypes) then Some (defaultCoefficients key) else None.
Proof.
  unfold initCoefficients.
  assert (H : forall keys (c : Coefficients),
    foldl (fun c k => <[k := defaultCoefficients k]> c) c keys !! key =
      if bool_decide (key ∈ keys) then Some (defaultCoefficients key) else c !! key).
  { induction keys as [| k keys IH]; intros c.
    - rewrite bool_decide_eq_false_2; [done | apply not_elem_of_nil].
    - cbn [foldl]. rewrite IH.
      destruct (decide (key = k)) as [-> | Hne].
      + rewrite (bool_decide_eq_true_2 (k ∈ k :: keys)) by apply list_elem_of_here.
        rewrite lookup_insert_eq. by destruct (bool_decide (k ∈ keys)).
      + rewrite lookup_insert_ne by done.
        destruct (decide (key ∈ keys)) as [Hin | Hin].
        * rewrite !bool_decide_eq_true_2; [done | by apply list_elem_of_further | done].
        * rewrite !bool_decide_eq_false_2; [done | | done].
          intros [? | ?]%elem_of_cons; congruence. }
  rewrite H. by rewrite lookup_empty.
Qed.

Lemma expandWalls_no_walls (m : Materials) :
  m !! "walls" = None -> expandWalls m = m.
Proof.
  intros H. unfold expandWalls. rewrite has_property_own by reflexivity.
  rewrite bool_decide_eq_false_2; [done |]. rewrite H. by intros [? ?].
Qed.

Lemma expandWalls_lookup (m : Materials) walls key :
  m !! "walls" = Some walls ->
  expandWalls m !! key =
    if bool_decide (key ∈ sideWalls) then Some walls else m !! key.
Proof.
  intros H. unfold expandWalls. rewrite has_property_own by reflexivity.
  rewrite bool_decide_eq_true_2 by (rewrite H; by eexists).
  assert (G : forall keys (m : Materials),
    m !! "walls" = Some walls -> "walls" ∉ keys ->
    foldl (fun (materials : Materials) key =>
             if negb (String.eqb key "ceiling") && negb (String.eqb key "floor")
             then match materials !! "walls" with
                  | Some walls => <[key := walls]> materials
                  | None => materials
                  end
             else materials) m keys !! key =
      if bool_decide (key ∈ filter (fun k => isSideWall k = true) keys)
      then Some walls else m !! key).
  { clear m H. induction keys as [| k keys IH]; intros m H Hk.
    - rewrite bool_decide_eq_false_2; [done | apply not_elem_of_nil].
    - cbn [foldl]. fold (isSideWall k).
      apply not_elem_of_cons in Hk as [Hk1 Hk2].
      rewrite filter_cons. destruct (decide (isSideWall k = true)) as [Hs | Hs].
      + rewrite Hs, H. rewrite IH; [| by rewrite lookup_insert_ne | done].
        destruct (decide (key = k)) as [-> | Hne].
        * rewrite lookup_insert_eq.
          rewrite (bool_decide_eq_true_2 (k ∈ k :: _)) by apply list_elem_of_here.
          by destruct (bool_decide _).
        * rewrite lookup_insert_ne by done.
          destruct (decide (key ∈ filter (fun k => isSideWall k = true) keys)) as [Hin | Hin].
          -- rewrite !bool_decide_eq_true_2; [done | by apply list_elem_of_further | done].
          -- rewrite !bool_decide_eq_false_2; [done | | done].
             intros [? | ?]%elem_of_cons; congruence.
      + apply not_true_is_false in Hs. rewrite Hs. by apply IH. }
  rewrite G; [reflexivity | done |].
  unfold WallTypes. intros Hin.
  repeat (apply elem_of_cons in Hin as [Hin | Hin]; [discriminate |]).
  by apply elem_of_nil in Hin.
Qed.

Lemma WallTypes_not_inherited : Forall (fun k => inherited k = false) WallTypes.
Proof. apply Forall_forall. intros. by apply wall_not_inherited. Qed.

Lemma getCoefficients_unfold (om : option Materials) :
  let m := expandWalls (default DefaultMaterials om) in
  let st := foldl (assignWall m) (initCoefficients, []) WallTypes in
  getCoefficientsFromMaterials om =
    {| coefficients := st.1; materials_after := m; logged := st.2 |}.
Proof.
  intros m st. unfold getCoefficientsFromMaterials. fold m. fold st.
  by destruct st.
Qed.

Lemma getCoefficients_lookup (om : option Materials) key :
  coefficients (getCoefficientsFromMaterials om) !! key =
    if bool_decide (key ∈ WallTypes)
    then Some (default (defaultCoefficients key)
                 (resolveWall (expandWalls (default DefaultMaterials om)) key))
    else None.
Proof.
  rewrite getCoefficients_unfold. cbn [coefficients].
  destruct (assignWall_fold (expandWalls (default DefaultMaterials om))
              WallTypes initCoefficients [] WallTypes_not_inherited) as [H _].
  etrans; [apply H |]. rewrite initCoefficients_lookup.
  destruct (bool_decide (key ∈ WallTypes)); [| reflexivity].
  by destruct (resolveWall _ key).
Qed.

Lemma getCoefficients_logged (om : option Materials) :
  logged (getCoefficientsFromMaterials om) =
    omap (wallMessage (expandWalls (default DefaultMaterials om))) WallTypes.
Proof.
  rewrite getCoefficients_unfold. cbn [logged].
  destruct (assignWall_fold (expandWalls (default DefaultMaterials om))
              WallTypes initCoefficients [] WallTypes_not_inherited) as [_ H].
  exact H.
Qed.

Lemma getCoefficients_materials (om : option Materials) :
  materials_after (getCoefficientsFromMaterials om) =
    expandWalls (default DefaultMaterials om).
Proof. by rewrite getCoefficients_unfold. Qed.

Lemma sideWalls_WallTypes key : key ∈ sideWalls -> key ∈ WallTypes.
Proof.
  unfold sideWalls, WallTypes. rewrite !elem_of_cons, !elem_of_nil. tauto.
Qed.





(** ** Loops and the RT60 estimator *)
Lemma for_loop_S {S} n (body : nat -> S -> option S) s :
  for_loop (Datatypes.S n) body s = for_loop n body s ≫= body n.
Proof. unfold for_loop. by rewrite seq_S, foldl_app. Qed.

Lemma for_loop_ext {S} n (body body' : nat -> S -> option S) s :
  (forall i s, i < n -> body i s = body' i s) ->
  for_loop n body s = for_loop n body' s.
Proof.
  induction n as [| n IH]; intros H; [reflexivity |].
  rewrite !for_loop_S, IH by (intros; apply H; lia).
  destruct (for_loop n body' s); [apply H; lia | reflexivity].
Qed.

Lemma for_loop_store (f : nat -> float) n (a : list float) :
  n <= length a ->
  for_loop n (fun i a => Some (Float32Array_set a i (f i))) a =
    Some (map (fun i => fround (f i)) (seq 0 n) ++ drop n a).
Proof.
  induction n as [| n IH]; intros Hn.
  - by rewrite drop_0.
  - rewrite for_loop_S, IH by lia. cbn [mbind option_bind]. f_equal.
    unfold Float32Array_set.
    assert (Hlen : length (map (fun i => fround (f i)) (seq 0 n)) = n)
      by by rewrite length_map, length_seq.
    rewrite insert_app_r_alt by lia. rewrite Hlen, Nat.sub_diag.
    destruct (drop n a) as [| x rest] eqn:E.
    { apply (f_equal length) in E. rewrite length_drop in E. cbn in E. lia. }
    rewrite seq_S, map_app, <- app_assoc. cbn. do 2 f_equal.
    replace (drop (S n) a) with (drop 1 (drop n a)); [by rewrite E |].
    rewrite drop_drop. f_equal. lia.
Qed.

Section RT60.
Variable G : Globals.
Variable Math_log : float -> float.

Lemma noUndefined_wall (coefs : option Coefficients) key :
  noUndefined coefs = true -> key ∈ WallTypes ->
  default ∅ coefs !! key <> Some Undefined.
Proof.
  unfold noUndefined. rewrite forallb_forall. intros H Hin E.
  apply list_elem_of_In in Hin. specialize (H key Hin). by rewrite E in H.
Qed.

Lemma index_sanitized (coefs : option Coefficients) key i :
  noUndefined coefs = true -> key ∈ WallTypes ->
  index (sanitizeCoefficients coefs !! key) i =
    Some (coeff (sanitizeCoefficients coefs) key i).
Proof.
  intros Hdef Hin. unfold coeff.
  assert (H : exists v, sanitizeCoefficients coefs !! key = Some v /\ v <> Undefined).
  { rewrite sanitizeCoefficients_lookup.
    pose proof (noUndefined_wall coefs key Hdef Hin) as Hne.
    destruct (default ∅ coefs !! key) as [v |].
    - exists v. split; [done | congruence].
    - rewrite bool_decide_eq_true_2 by done.
      rewrite defaultCoefficients_wall by done. eauto. }
  destruct H as (v & -> & Hv). by destruct v.
Qed.

Lemma rt60Band_spec dims (coefs : option Coefficients) sos i a :
  noUndefined coefs = true ->
  rt60Band Math_log (sanitizeCoefficients coefs) (acousticConstant G sos)
    (roomVolume dims) (leftRightArea dims) (floorCeilingArea dims)
    (frontBackArea dims) (totalArea dims) i a =
  Some (Float32Array_set a i
          (bandRT60 G Math_log dims (sanitizeCoefficients coefs) sos i)).
Proof.
  intros Hdef. unfold rt60Band.
  rewrite !index_sanitized by (done || (unfold WallTypes; rewrite !elem_of_cons; tauto)).
  cbn [mbind option_bind].
  unfold bandRT60, meanAbsorption, absorptionArea, SabineRT60, EyringRT60,
    airAbsorption.
  by destruct (PrimFloat.leb _ 0.5).
Qed.

Lemma computeRT60Secs_skip dims coefs sos :
  PrimFloat.ltb (roomVolume dims) MinVolume = true ->
  computeRT60Secs G Math_log dims coefs sos = Some (Float32Array NumReverbBands).
Proof.
  intros H. unfold computeRT60Secs.
  change (number_at (sanitizeDimensions dims) "width" *
          number_at (sanitizeDimensions dims) "height" *
          number_at (sanitizeDimensions dims) "depth")%float
    with (roomVolume dims).
  by rewrite H.
Qed.

Lemma computeRT60Secs_bands dims coefs sos :
  noUndefined coefs = true ->
  PrimFloat.ltb (roomVolume dims) MinVolume = false ->
  computeRT60Secs G Math_log dims coefs sos =
    Some (map (fun i => fround (bandRT60 G Math_log dims
                                  (sanitizeCoefficients coefs) sos i))
            (seq 0 NumReverbBands)).
Proof.
  intros Hdef H. unfold computeRT60Secs.
  change (number_at (sanitizeDimensions dims) "width" *
          number_at (sanitizeDimensions dims) "height" *
          number_at (sanitizeDimensions dims) "depth")%float
    with (roomVolume dims).
  rewrite H.
  change (number_at (sanitizeDimensions dims) "width" *
          number_at (sanitizeDimensions dims) "height")%float
    with (leftRightArea dims).
  change (number_at (sanitizeDimensions dims) "width" *
          number_at (sanitizeDimensions dims) "depth")%float
    with (floorCeilingArea dims).
  change (number_at (sanitizeDimensions dims) "depth" *
          number_at (sanitizeDimensions dims) "height")%float
    with (frontBackArea dims).
  change (2 * (leftRightArea dims + floorCeilingArea dims + frontBackArea dims))%float
    with (totalArea dims).
  change (TwentyFourLog10 G / default (DefaultSpeedOfSound G) sos)%float
    with (acousticConstant G sos).
  erewrite for_loop_ext; [| intros i s _; by apply rt60Band_spec].
  rewrite for_loop_store by (by unfold Float32Array; rewrite length_replicate).
  unfold Float32Array. rewrite drop_ge by (by rewrite length_replicate).
  by rewrite app_nil_r.
Qed.

End RT60.

(** ** The reflection coefficients *)

Section Reflections.
Variable G : Globals.

Let start := DefaultReflectionsStartingBand G.
Let count := DefaultReflectionsNumAveragingBands G.

(** The inner loop adds the window's bands to the wall's entry. *)
Lemma sum_loop (c : Coefficients) key (g : nat -> float) n (rc : gmap string float) :
  (forall j, index (c !! key) (j + start) = Some (g j)) ->
  exists rc',
    for_loop n
      (fun j rc =>
         x ← index (c !! key) (j + start);
         Some (<[key := (number_at rc key + x)%float]> rc)) rc = Some rc'
    /\ number_at rc' key =
         foldl (fun sum j => (sum + g j)%float) (number_at rc key) (seq 0 n)
    /\ forall v, <[key := v]> rc' = <[key := v]> rc.
Proof.
  intros Hg. induction n as [| n (rc' & E & Hsum & Hins)].
  - exists rc. by repeat split.
  - rewrite for_loop_S, E. cbn [mbind option_bind]. rewrite Hg.
    cbn [mbind option_bind]. eexists. split; [reflexivity |]. split.
    + unfold number_at at 1. rewrite lookup_insert_eq. cbn [default from_option id].
      by rewrite seq_S, foldl_app, Hsum.
    + intros v. by rewrite insert_insert_eq.
Qed.

Lemma reflectWall_spec (coefs : option Coefficients) rc key :
  noUndefined coefs = true -> key ∈ WallTypes ->
  reflectWall G (sanitizeCoefficients coefs) rc key =
    Some (<[key :=
            PrimFloat.sqrt
              (1 - foldl (fun sum j =>
                            (sum + coeff (sanitizeCoefficients coefs) key
                                     (j + start))%float)
                         (number_at rc key) (seq 0 count)
                   / of_nat count)]> rc).
Proof.
  intros Hdef Hin. unfold reflectWall.
  destruct (sum_loop (sanitizeCoefficients coefs) key
              (fun j => coeff (sanitizeCoefficients coefs) key (j + start))
              count rc) as (rc' & E & Hsum & Hins).
  { intros j. by apply index_sanitized. }
  fold start count. rewrite E. cbn [mbind option_bind]. f_equal.
  rewrite insert_insert_eq, Hins. f_equal.
  unfold number_at at 1. rewrite lookup_insert_eq. cbn [default from_option id].
  by rewrite Hsum.
Qed.

(** The walls are visited one after the other, each changing its own entry. *)
Lemma reflect_fold (F : string -> float -> float) (keys : list string)
    (rc : gmap string float) key :
  NoDup keys -> key ∈ keys ->
  foldl (fun rc k => <[k := F k (number_at rc k)]> rc) rc keys !! key =
    Some (F key (number_at rc key)).
Proof.
  intros Hnd. revert rc.
  induction Hnd as [| k keys Hk Hnd IH]; intros rc Hin.
  - by apply elem_of_nil in Hin.
  - cbn [foldl]. apply elem_of_cons in Hin as [-> | Hin].
    + assert (H : forall (keys : list string) (rc : gmap string float),
                k ∉ keys ->
                foldl (fun rc k => <[k := F k (number_at rc k)]> rc) rc keys !! k
                  = rc !! k).
      { clear. induction keys as [| k' keys IH]; intros rc Hk; [done |].
        apply not_elem_of_cons in Hk as [? ?]. cbn [foldl].
        rewrite IH by done. by rewrite lookup_insert_ne. }
      rewrite H by done. by rewrite lookup_insert_eq.
    + rewrite IH by done. do 2 f_equal. unfold number_at.
      rewrite lookup_insert_ne; [done |]. intros ->. contradiction.
Qed.

Lemma WallTypes_NoDup : NoDup WallTypes.
Proof. by apply (bool_decide_unpack _); vm_compute. Qed.

Lemma computeReflectionCoefficients_fold (coefs : option Coefficients) :
  noUndefined coefs = true ->
  computeReflectionCoefficients G coefs =
    Some (foldl (fun rc k => <[k := wallValue G coefs k (number_at rc k)]> rc)
            initReflectionCoefficients WallTypes).
Proof.
  intros Hdef. unfold computeReflectionCoefficients.
  assert (H : forall keys (rc : gmap string float),
    keys ⊆ WallTypes ->
    foldl (fun acc key => acc ≫= fun rc => reflectWall G (sanitizeCoefficients coefs) rc key)
      (Some rc) keys =
    Some (foldl (fun rc k => <[k := wallValue G coefs k (number_at rc k)]> rc)
            rc keys)).
  { induction keys as [| k keys IH]; intros rc Hsub; [done |].
    cbn [foldl mbind option_bind].
    rewrite reflectWall_spec; [| done | apply Hsub, list_elem_of_here].
    apply IH. intros x Hx. by apply Hsub, list_elem_of_further. }
  by apply H.
Qed.

Lemma computeReflectionCoefficients_wall (coefs : option Coefficients) key :
  noUndefined coefs = true -> key ∈ WallTypes ->
  exists rc, computeReflectionCoefficients G coefs = Some rc
    /\ rc !! key =
         Some (PrimFloat.sqrt (1 - windowMean G (sanitizeCoefficients coefs) key)).
Proof.
  intros Hdef Hin. rewrite computeReflectionCoefficients_fold by done.
  eexists. split; [reflexivity |].
  rewrite (reflect_fold (wallValue G coefs) WallTypes _ key WallTypes_NoDup Hin).
  unfold wallValue, windowMean. fold start count. do 5 f_equal.
  unfold WallTypes in Hin.
  repeat (apply elem_of_cons in Hin as [-> | Hin]; [by vm_compute |]).
  by apply elem_of_nil in Hin.
Qed.

End Reflections.

Section ReflectionValues.
Variable G : Globals.

Lemma sqrt_negative (x : float) :
  PrimFloat.ltb x 0 = true -> PrimFloat.sqrt x = nan.
Proof.
  intros H. apply Prim2SF_inj. rewrite FloatAxioms.sqrt_spec. unfold SF64sqrt.
  change (Prim2SF nan) with S754_nan.
  apply negative_SF in H as (Hn & Hz & H).
  by destruct (Prim2SF x) as [[] | [] | | [] ? ?].
Qed.

Lemma constant_window (c : Coefficients) key x start n :
  (forall j, j < n -> coeff c key (j + start) = x) ->
  foldl (fun sum j => (sum + coeff c key (j + start))%float) 0%float (seq 0 n) =
  foldl (fun sum _ => (sum + x)%float) 0%float (seq 0 n).
Proof.
  induction n as [| n IH]; intros H; [done |].
  rewrite seq_S, !foldl_app. cbn [foldl]. rewrite IH by (intros; apply H; lia).
  by rewrite H by lia.
Qed.

Lemma mean_of_ones n :
  1 <= n <= NumReverbBands ->
  (foldl (fun sum _ => (sum + 1)%float) 0%float (seq 0 n) / of_nat n)%float = 1%float.
Proof.
  unfold NumReverbBands. intros [H1 H2].
  do 10 (destruct n as [| n]; [first [lia | by vm_compute] |]). lia.
Qed.

Lemma mean_of_zeros n :
  1 <= n <= NumReverbBands ->
  (foldl (fun sum _ => (sum + 0)%float) 0%float (seq 0 n) / of_nat n)%float = 0%float.
Proof.
  unfold NumReverbBands. intros [H1 H2].
  do 10 (destruct n as [| n]; [first [lia | by vm_compute] |]). lia.
Qed.

Lemma coeff_transparent key i :
  key ∈ WallTypes -> i < NumReverbBands ->
  coeff (sanitizeCoefficients None) key i = 1%float.
Proof.
  intros Hin Hi. unfold coeff. rewrite sanitizeCoefficients_lookup.
  change (default ∅ None !! key) with ((∅ : Coefficients) !! key).
  rewrite lookup_empty, bool_decide_eq_true_2 by done.
  rewrite defaultCoefficients_wall by done. cbn [index default from_option id].
  unfold NumReverbBands in Hi.
  do 9 (destruct i as [| i]; [reflexivity |]). lia.
Qed.

Lemma coeff_reflective key i :
  key ∈ WallTypes -> i < NumReverbBands ->
  coeff (sanitizeCoefficients (Some fullyReflective)) key i = 0%float.
Proof.
  intros Hin Hi. unfold NumReverbBands in Hi. unfold WallTypes in Hin.
  repeat (apply elem_of_cons in Hin as [-> | Hin];
    [do 9 (destruct i as [| i]; [by vm_compute |]); lia |]).
  by apply elem_of_nil in Hin.
Qed.

Lemma windowMean_transparent key :
  windowInBands G -> key ∈ WallTypes ->
  windowMean G (sanitizeCoefficients None) key = 1%float.
Proof.
  intros [H1 H2] Hin. unfold windowMean.
  rewrite (constant_window _ key 1) by (intros; apply coeff_transparent; [done | lia]).
  apply mean_of_ones. lia.
Qed.

Lemma windowMean_reflective key :
  windowInBands G -> key ∈ WallTypes ->
  windowMean G (sanitizeCoefficients (Some fullyReflective)) key = 0%float.
Proof.
  intros [H1 H2] Hin. unfold windowMean.
  rewrite (constant_window _ key 0) by (intros; apply coeff_reflective; [done | lia]).
  apply mean_of_zeros. lia.
Qed.

End ReflectionValues.

(** ** The bands of the profile *)


Section BandValues.
Variable G : Globals.
Variable Math_log : float -> float.


End BandValues.



(** ** The assignment after the call, and names that are no materials *)

Lemma expandWalls_idempotent (m : Materials) :
  expandWalls (expandWalls m) = expandWalls m.
Proof.
  destruct (m !! "walls") as [walls |] eqn:E.
  - apply map_eq. intros key.
    assert (E' : expandWalls m !! "walls" = Some walls)
      by (by rewrite (expandWalls_lookup m walls)).
    rewrite (expandWalls_lookup _ walls) by done.
    rewrite (expandWalls_lookup m walls) by done.
    by destruct (bool_decide (key ∈ sideWalls)).
  - rewrite (expandWalls_no_walls m E). by apply expandWalls_no_walls.
Qed.

(** C2, as amended.  The resolver expands "walls" in the caller's object:
    after the call that object maps left, right, front and back to the value
    of "walls" and is unchanged at every other key (and unchanged altogether
    when it has no "walls").  The expansion is idempotent: calling the
    resolver again on the object it left behind returns the same
    coefficients and the same log, and leaves the object as it was. *)
Theorem walls_written_into_argument (m : Materials) :
  let r := getCoefficientsFromMaterials (Some m) in
  (forall key,
     materials_after r !! key =
       match m !! "walls" with
       | Some walls => if bool_decide (key ∈ sideWalls) then Some walls else m !! key
       | None => m !! key
       end)
  /\ getCoefficientsFromMaterials (Some (materials_after r)) = r.
Proof.
  intros r. subst r. split.
  - intros key. rewrite getCoefficients_materials.
    change (default DefaultMaterials (Some m)) with m.
    destruct (m !! "walls") as [walls |] eqn:E.
    + by apply expandWalls_lookup.
    + by rewrite expandWalls_no_walls.
  - rewrite getCoefficients_materials.
    rewrite !getCoefficients_unfold. cbv zeta.
    change (default DefaultMaterials (Some ?x)) with x.
    by rewrite expandWalls_idempotent.
Qed.

(** C2 as stated fails: after resolving [{walls: 'BrickBare'}] the caller's
    object has a key "left" it did not have. *)
Lemma walls_alias_mutates_argument :
  materials_after (getCoefficientsFromMaterials (Some wallsOnly)) !! "left"
    = Some "BrickBare"
  /\ wallsOnly !! "left" = None
  /\ materials_after (getCoefficientsFromMaterials (Some wallsOnly)) <> wallsOnly.
Proof.
  split; [by vm_compute |]. split; [by vm_compute |].
  intros H. apply (f_equal (fun m : Materials => m !! "left")) in H.
  vm_compute in H. discriminate.
Qed.

(** C5, at the failing input [{left: 'toString'}]: "toString" is not a
    material, yet the left wall of the result is neither a 9-band vector nor
    the default: it is the member [Object.prototype.toString]. *)
Theorem resolver_stores_inherited_member :
  MaterialCoefficients !! "toString" = None
  /\ coefficients (getCoefficientsFromMaterials (Some inheritedName)) !! "left"
     = Some (Inherited "toString")
  /\ defaultCoefficients "left" = Vector [1; 1; 1; 1; 1; 1; 1; 1; 1]%float.
Proof. repeat split; by vm_compute. Qed.

(** C7, at the failing input [{left: 'toString'}]: the left wall does not
    keep its default vector, and the only texts logged are those of the five
    walls the assignment omits: nothing reports the rejected material. *)
Theorem inherited_name_not_reported :
  MaterialCoefficients !! "toString" = None
  /\ coefficients (getCoefficientsFromMaterials (Some inheritedName)) !! "left"
     <> Some (defaultCoefficients "left")
  /\ logged (getCoefficientsFromMaterials (Some inheritedName))
     = map notDefinedMessage ["right"; "front"; "back"; "ceiling"; "floor"].
Proof.
  split; [by vm_compute |]. split; [| by vm_compute].
  intros H. vm_compute in H. discriminate.
Qed.

(** C9. Both sanitizers keep every entry of the object they are given, under
    any key and with any value (no validation), and add an entry only under a
    key the object lacks: a wall's default vector, a dimension's default 0. *)
Theorem sanitizers_keep_entries :
  (forall (c : Coefficients) key,
     sanitizeCoefficients (Some c) !! key =
       match c !! key with
       | Some v => Some v
       | None => if bool_decide (key ∈ WallTypes)
                 then Some (defaultCoefficients key) else None
       end)
  /\ (forall (d : Dimensions) key,
        sanitizeDimensions (Some d) !! key =
          match d !! key with
          | Some x => Some x
          | None => if bool_decide (key ∈ DimensionTypes)
                    then Some 0%float else None
          end).
Proof.
  split.
  - intros c key. apply (sanitizeCoefficients_lookup (Some c)).
  - intros d key. rewrite (sanitizeDimensions_lookup (Some d)).
    change (default ∅ (Some d)) with d.
    destruct (d !! key); [done |].
    destruct (decide (key ∈ DimensionTypes)) as [Hin | Hin].
    + rewrite bool_decide_eq_true_2 by done. f_equal.
      unfold DimensionTypes in Hin.
      repeat (apply elem_of_cons in Hin as [-> | Hin]; [by vm_compute |]).
      by apply elem_of_nil in Hin.
    + by rewrite bool_decide_eq_false_2.
Qed.

Lemma sanitizers_keep_entries_witness :
  sanitizeCoefficients (Some overAbsorbing) !! "left"
    = Some (Vector (replicate NumReverbBands 2%float))
  /\ sanitizeDimensions (Some mirroredRoom) !! "width" = Some (-4)%float.
Proof.
  split.
  - exact (proj1 sanitizers_keep_entries overAbsorbing "left").
  - exact (proj2 sanitizers_keep_entries mirroredRoom "width").
Defined.

(** ** Degenerate volumes, reflectances, negative dimensions *)

Section Estimators.
Variable G : Globals.
Variable Math_log : float -> float.

(** C3. Whenever the volume width * height * depth is below [MinVolume],
    [computeRT60Secs] returns nine zeros, whatever the coefficient set and
    the speed of sound; absent and all-zero dimensions are such cases.  At a
    volume equal to [MinVolume] the bands are computed. *)
Theorem computeRT60Secs_small_volume :
  (forall dims coefs sos,
     PrimFloat.ltb (roomVolume dims) MinVolume = true ->
     computeRT60Secs G Math_log dims coefs sos = Some zeroProfile)
  /\ (forall coefs sos,
        computeRT60Secs G Math_log None coefs sos = Some zeroProfile
        /\ computeRT60Secs G Math_log (Some DefaultDimensions) coefs sos
           = Some zeroProfile)
  /\ (forall dims coefs sos,
        noUndefined coefs = true ->
        PrimFloat.eqb (roomVolume dims) MinVolume = true ->
        computeRT60Secs G Math_log dims coefs sos =
          Some (map (fun i => fround (bandRT60 G Math_log dims
                                        (sanitizeCoefficients coefs) sos i))
                  (seq 0 NumReverbBands))).
Proof.
  split; [| split].
  - intros dims coefs sos H. by rewrite computeRT60Secs_skip.
  - intros coefs sos. split; by rewrite computeRT60Secs_skip by by vm_compute.
  - intros dims coefs sos Hdef H.
    apply computeRT60Secs_bands; [done | by apply eqb_ltb_false].
Qed.

(** C4, as amended.  For every set with no undefined wall and every wall,
    [computeReflectionCoefficients] returns sqrt (1 - a), where a is the sum
    of the wall's absorption over the averaging window divided by the number
    of its bands.  Nothing clamps 1 - a: when it is negative the result is
    NaN.  A mean of 1 gives 0 and a mean of 0 gives 1; with a window inside
    the nine bands, the all-Transparent set gives 0 and a set absorbing
    nothing gives 1 on each of the six walls. *)
Theorem computeReflectionCoefficients_value :
  (forall (coefs : option Coefficients) key,
     noUndefined coefs = true -> key ∈ WallTypes ->
     let a := windowMean G (sanitizeCoefficients coefs) key in
     exists rc,
       computeReflectionCoefficients G coefs = Some rc
       /\ rc !! key = Some (PrimFloat.sqrt (1 - a))
       /\ (PrimFloat.ltb (1 - a) 0 = true -> rc !! key = Some nan)
       /\ (a = 1%float -> rc !! key = Some 0%float)
       /\ (a = 0%float -> rc !! key = Some 1%float))
  /\ (windowInBands G ->
      forall key, key ∈ WallTypes ->
        computeReflectionCoefficients G None ≫= (.!! key) = Some 0%float
        /\ computeReflectionCoefficients G (Some fullyReflective) ≫= (.!! key)
           = Some 1%float).
Proof.
  split.
  - intros coefs key Hdef Hin a.
    destruct (computeReflectionCoefficients_wall G coefs key Hdef Hin)
      as (rc & E & Hrc).
    exists rc. fold a in Hrc. repeat split; try done.
    + intros H. by rewrite Hrc, sqrt_negative.
    + intros Ha. rewrite Hrc, Ha. by vm_compute.
    + intros Ha. rewrite Hrc, Ha. by vm_compute.
  - intros Hw key Hin. split.
    + destruct (computeReflectionCoefficients_wall G None key eq_refl Hin)
        as (rc & -> & Hrc).
      cbn [mbind option_bind]. rewrite Hrc, windowMean_transparent by done.
      by vm_compute.
    + destruct (computeReflectionCoefficients_wall G (Some fullyReflective) key
                  eq_refl Hin) as (rc & -> & Hrc).
      cbn [mbind option_bind]. rewrite Hrc, windowMean_reflective by done.
      by vm_compute.
Qed.

Lemma roomVolume_of (dims : Dimensions) w h d :
  dims !! "width" = Some w -> dims !! "height" = Some h ->
  dims !! "depth" = Some d ->
  roomVolume (Some dims) = (w * h * d)%float.
Proof.
  intros Hw Hh Hd. unfold roomVolume, width, height, depth, number_at.
  rewrite !(sanitizeDimensions_lookup (Some dims)).
  change (default ∅ (Some dims)) with dims.
  by rewrite Hw, Hh, Hd.
Qed.

(** C10, as amended.  When an odd number of width, height and depth is
    negative and the others are non-negative, the product is either NaN or
    below [MinVolume]; when it is not NaN, [computeRT60Secs] returns nine
    zeros, whatever the coefficient set and the speed of sound.  The product
    is not NaN when the three dimensions are finite and not zero. *)
Theorem odd_negative_dimensions (dims : Dimensions) (w h d : float) :
  dims !! "width" = Some w -> dims !! "height" = Some h ->
  dims !! "depth" = Some d ->
  oddNegative w h d = true ->
  (PrimFloat.is_nan (roomVolume (Some dims)) = false ->
   PrimFloat.ltb (roomVolume (Some dims)) MinVolume = true
   /\ forall coefs sos,
        computeRT60Secs G Math_log (Some dims) coefs sos = Some zeroProfile)
  /\ (finiteNonZero w = true -> finiteNonZero h = true ->
      finiteNonZero d = true ->
      PrimFloat.is_nan (roomVolume (Some dims)) = false).
Proof.
  intros Hw Hh Hd Hodd. rewrite (roomVolume_of dims w h d) by done. split.
  - intros Hnan.
    assert (Hlt : PrimFloat.ltb (roomVolume (Some dims)) MinVolume = true).
    { rewrite (roomVolume_of dims w h d) by done.
      by apply odd_negative_product. }
    split.
    + by rewrite <- (roomVolume_of dims w h d).
    + intros coefs sos. by rewrite computeRT60Secs_skip.
  - apply finite_product_not_nan.
Qed.

End Estimators.

Lemma computeRT60Secs_small_volume_witness :
  computeRT60Secs SampleGlobals sample_log (Some tinyRoom) (Some uniformWalls)
    None = Some zeroProfile.
Proof.
  apply (proj1 (computeRT60Secs_small_volume SampleGlobals sample_log)).
  vm_compute; reflexivity.
Defined.

Lemma computeReflectionCoefficients_value_witness :
  computeReflectionCoefficients SampleGlobals None ≫= (.!! "left") = Some 0%float
  /\ computeReflectionCoefficients SampleGlobals (Some fullyReflective)
       ≫= (.!! "left") = Some 1%float.
Proof.
  apply (proj2 (computeReflectionCoefficients_value SampleGlobals)).
  - unfold windowInBands, NumReverbBands; cbn; lia.
  - unfold WallTypes. apply list_elem_of_here.
Defined.

(** C4 as stated fails: a left wall absorbing 2 in every band has mean 2,
    for which the specification's sqrt (max (0, 1 - a)) is 0, and the code
    returns NaN. *)
Lemma reflectance_not_clamped :
  windowMean SampleGlobals (sanitizeCoefficients (Some overAbsorbing)) "left"
    = 2%float
  /\ computeReflectionCoefficients SampleGlobals (Some overAbsorbing)
       ≫= (.!! "left") = Some nan
  /\ clampedReflectance 2 = 0%float.
Proof. repeat split; vm_compute; reflexivity. Qed.

Lemma odd_negative_dimensions_witness :
  PrimFloat.ltb (roomVolume (Some mirroredRoom)) MinVolume = true
  /\ computeRT60Secs SampleGlobals sample_log (Some mirroredRoom)
       (Some uniformWalls) None = Some zeroProfile.
Proof.
  destruct (proj1 (odd_negative_dimensions SampleGlobals sample_log mirroredRoom
                     (-4) 3 5 eq_refl eq_refl eq_refl eq_refl)) as [H1 H2].
  - vm_compute; reflexivity.
  - split; [exact H1 | apply H2].
Defined.

(** C10 as stated fails: with width -1e200, height 1e200 and depth 0 the
    product of the first two overflows to minus infinity, its product with 0
    is NaN, which is not below [MinVolume], and every band is NaN. *)
Lemma negative_overflow_gives_nan :
  oddNegative (-1e200) 1e200 0 = true
  /\ finiteNonZero 0 = false
  /\ PrimFloat.is_nan (roomVolume (Some overflowRoom)) = true
  /\ computeRT60Secs SampleGlobals sample_log (Some overflowRoom) None None
     = Some [nan; nan; nan; nan; nan; nan; nan; nan; nan].
Proof. repeat split; vm_compute; reflexivity. Qed.

(** ** Further properties of the resolver *)

Lemma get_vector_defined name :
  has_property name MaterialCoefficients = true ->
  get_vector MaterialCoefficients name <> Undefined.
Proof.
  unfold has_property, get_vector.
  destruct (MaterialCoefficients !! name) as [v |]; [done |].
  rewrite bool_decide_eq_false_2 by (by intros [? ?]). cbn [orb].
  by intros ->.
Qed.

Lemma resolveWall_defined (m : Materials) key :
  resolveWall m key <> Some Undefined.
Proof.
  unfold resolveWall. destruct (m !! key) as [name |]; [| done].
  destruct (has_property name MaterialCoefficients) eqn:E; [| done].
  intros [= H]. by apply get_vector_defined in H.
Qed.

Lemma resolver_defined (materials : option Materials) :
  noUndefined (Some (coefficients (getCoefficientsFromMaterials materials)))
    = true.
Proof.
  unfold noUndefined. apply forallb_forall. intros key Hin%list_elem_of_In.
  change (default ∅ (Some ?c)) with c.
  rewrite getCoefficients_lookup, bool_decide_eq_true_2 by done.
  pose proof (resolveWall_defined
                (expandWalls (default DefaultMaterials materials)) key) as H.
  destruct (resolveWall _ key) as [[] |]; try done.
  by rewrite defaultCoefficients_wall.
Qed.

(** Whatever it is given (nothing, an empty, partial or unknown assignment),
    the resolver returns a set whose keys are exactly the six walls, none of
    them stored as undefined: reading a band of any wall never raises. *)
Theorem resolver_returns_six_defined_walls (materials : option Materials) :
  dom (coefficients (getCoefficientsFromMaterials materials))
    = list_to_set WallTypes
  /\ noUndefined (Some (coefficients (getCoefficientsFromMaterials materials)))
     = true.
Proof.
  split; [| apply resolver_defined].
  apply set_eq. intros key.
  rewrite elem_of_dom, getCoefficients_lookup, elem_of_list_to_set.
  destruct (decide (key ∈ WallTypes)) as [Hin | Hin].
  - rewrite bool_decide_eq_true_2 by done. split; [done | by eexists].
  - rewrite bool_decide_eq_false_2 by done. split; [by intros [? ?] | done].
Qed.

Lemma library_vectors_have_nine_bands name v :
  MaterialCoefficients !! name = Some v -> length v = NumReverbBands.
Proof.
  intros H.
  assert (Hall : map_Forall (fun _ v => length v = NumReverbBands)
                   MaterialCoefficients).
  { by apply (bool_decide_unpack _); vm_compute. }
  by apply (Hall name v).
Qed.

Lemma expandWalls_values (m : Materials) key name :
  expandWalls m !! key = Some name -> exists key', m !! key' = Some name.
Proof.
  destruct (m !! "walls") as [walls |] eqn:E.
  - rewrite (expandWalls_lookup m walls) by done.
    destruct (bool_decide (key ∈ sideWalls)); [intros [= <-] |]; eauto.
  - rewrite expandWalls_no_walls by done. eauto.
Qed.

(** When no material name of the assignment is a property inherited from
    [Object.prototype], every wall of the resolved set holds a vector of
    nine bands. *)
Theorem resolver_vectors_for_proper_names (m : Materials) key :
  map_Forall (fun _ name => inherited name = false) m ->
  key ∈ WallTypes ->
  exists v,
    coefficients (getCoefficientsFromMaterials (Some m)) !! key = Some (Vector v)
    /\ length v = NumReverbBands.
Proof.
  intros Hm Hin.
  rewrite getCoefficients_lookup, bool_decide_eq_true_2 by done.
  change (default DefaultMaterials (Some m)) with m.
  unfold resolveWall.
  destruct (expandWalls m !! key) as [name |] eqn:E.
  - destruct (expandWalls_values m key name E) as [key' Hk'].
    apply Hm in Hk'. unfold has_property, get_vector. rewrite Hk', orb_false_r.
    destruct (MaterialCoefficients !! name) as [v |] eqn:Ev.
    + rewrite bool_decide_eq_true_2 by (by eexists). cbn [default from_option id].
      exists v. split; [done | by apply (library_vectors_have_nine_bands name)].
    + rewrite bool_decide_eq_false_2 by (by intros [? ?]).
      cbn [default from_option id]. rewrite defaultCoefficients_wall by done.
      eauto.
  - cbn [default from_option id]. rewrite defaultCoefficients_wall by done. eauto.
Qed.

Lemma resolver_vectors_for_proper_names_witness :
  exists v,
    coefficients (getCoefficientsFromMaterials (Some unknownName)) !! "left"
      = Some (Vector v)
    /\ length v = NumReverbBands.
Proof.
  apply (resolver_vectors_for_proper_names unknownName "left").
  - apply (bool_decide_unpack _). vm_compute. reflexivity.
  - unfold WallTypes. apply list_elem_of_here.
Defined.

Lemma default_material_of_wall key :
  key ∈ WallTypes -> string_at DefaultMaterials key = "Transparent".
Proof.
  intros H. unfold WallTypes in H.
  repeat (apply elem_of_cons in H as [-> | H]; [by vm_compute |]).
  by apply elem_of_nil in H.
Qed.

Lemma wallMessage_logged (m : option Materials) key text :
  key ∈ WallTypes ->
  wallMessage (expandWalls (default DefaultMaterials m)) key = Some text ->
  text ∈ logged (getCoefficientsFromMaterials m).
Proof.
  intros Hin H. rewrite getCoefficients_logged.
  apply list_elem_of_omap. eauto.
Qed.

(** A wall whose material is unknown, or that the assignment omits, keeps
    the Transparent vector and has its text in the log. *)
Lemma unresolved_wall (m : Materials) key :
  key ∈ WallTypes ->
  let r := getCoefficientsFromMaterials (Some m) in
  (forall name,
     materials_after r !! key = Some name ->
     MaterialCoefficients !! name = None -> inherited name = false ->
     coefficients r !! key = Some (Vector [1; 1; 1; 1; 1; 1; 1; 1; 1]%float)
     /\ notFoundMessage name key "Transparent" ∈ logged r)
  /\ (materials_after r !! key = None ->
      coefficients r !! key = Some (Vector [1; 1; 1; 1; 1; 1; 1; 1; 1]%float)
      /\ notDefinedMessage key ∈ logged r).
Proof.
  intros Hin r. subst r. rewrite getCoefficients_materials.
  change (default DefaultMaterials (Some m)) with m.
  split.
  - intros name Hname Hlib Hproto.
    assert (Hp : has_property name MaterialCoefficients = false).
    { unfold has_property. rewrite Hlib, Hproto.
      by rewrite bool_decide_eq_false_2 by (by intros [? ?]). }
    split.
    + rewrite getCoefficients_lookup, bool_decide_eq_true_2 by done.
      change (default DefaultMaterials (Some m)) with m.
      unfold resolveWall. rewrite Hname, Hp. cbn [default from_option id].
      by rewrite defaultCoefficients_wall.
    + apply (wallMessage_logged (Some m) key); [done |].
      change (default DefaultMaterials (Some m)) with m.
      unfold wallMessage. by rewrite Hname, Hp, default_material_of_wall.
  - intros Hnone. split.
    + rewrite getCoefficients_lookup, bool_decide_eq_true_2 by done.
      change (default DefaultMaterials (Some m)) with m.
      unfold resolveWall. rewrite Hnone. cbn [default from_option id].
      by rewrite defaultCoefficients_wall.
    + apply (wallMessage_logged (Some m) key); [done |].
      change (default DefaultMaterials (Some m)) with m.
      unfold wallMessage. by rewrite Hnone.
Qed.

(** For a wall whose material name (after the expansion of "walls") is
    neither a library material nor an inherited property, the resolved vector
    is the Transparent one and the log holds the text naming the material,
    the wall and the default "Transparent"; for a wall the assignment omits,
    the vector is the Transparent one and the log holds the text saying the
    wall is not defined. *)
Theorem unresolved_wall_keeps_default_and_is_logged (m : Materials) key :
  key ∈ WallTypes ->
  let r := getCoefficientsFromMaterials (Some m) in
  (forall name,
     materials_after r !! key = Some name ->
     MaterialCoefficients !! name = None -> inherited name = false ->
     coefficients r !! key = Some (Vector [1; 1; 1; 1; 1; 1; 1; 1; 1]%float)
     /\ notFoundMessage name key "Transparent" ∈ logged r)
  /\ (materials_after r !! key = None ->
      coefficients r !! key = Some (Vector [1; 1; 1; 1; 1; 1; 1; 1; 1]%float)
      /\ notDefinedMessage key ∈ logged r).
Proof. exact (unresolved_wall m key). Qed.

Lemma unresolved_wall_keeps_default_and_is_logged_witness :
  (coefficients (getCoefficientsFromMaterials (Some unknownName)) !! "left"
     = Some (Vector [1; 1; 1; 1; 1; 1; 1; 1; 1]%float)
   /\ notFoundMessage "Velvet" "left" "Transparent"
        ∈ logged (getCoefficientsFromMaterials (Some unknownName)))
  /\ (coefficients (getCoefficientsFromMaterials (Some unknownName)) !! "floor"
        = Some (Vector [1; 1; 1; 1; 1; 1; 1; 1; 1]%float)
      /\ notDefinedMessage "floor"
           ∈ logged (getCoefficientsFromMaterials (Some unknownName))).
Proof.
  split.
  - apply (proj1 (unresolved_wall_keeps_default_and_is_logged unknownName "left"
                    ltac:(unfold WallTypes; rewrite !elem_of_cons; tauto))
             "Velvet"); vm_compute; reflexivity.
  - apply (proj2 (unresolved_wall_keeps_default_and_is_logged unknownName "floor"
                    ltac:(unfold WallTypes; rewrite !elem_of_cons; tauto))).
    vm_compute; reflexivity.
Defined.

(** An unknown material under "walls" wins over the side walls' own
    entries: each of left, right, front and back falls back to the
    Transparent vector, whatever material the assignment names for it, and
    is reported as not found under the name given for "walls". *)
Theorem unknown_walls_alias_resets_side_walls (m : Materials) (name : string) key :
  m !! "walls" = Some name ->
  MaterialCoefficients !! name = None -> inherited name = false ->
  key ∈ sideWalls ->
  let r := getCoefficientsFromMaterials (Some m) in
  coefficients r !! key = Some (Vector [1; 1; 1; 1; 1; 1; 1; 1; 1]%float)
  /\ notFoundMessage name key "Transparent" ∈ logged r.
Proof.
  intros Hw Hlib Hproto Hin r.
  apply (proj1 (unresolved_wall m key (sideWalls_WallTypes key Hin)) name);
    try done.
  rewrite getCoefficients_materials.
  change (default DefaultMaterials (Some m)) with m.
  by rewrite (expandWalls_lookup m name), bool_decide_eq_true_2.
Qed.

Lemma unknown_walls_alias_resets_side_walls_witness :
  coefficients
    (getCoefficientsFromMaterials
       (Some {[ "walls" := "Velvet"; "left" := "Marble" ]})) !! "left"
    = Some (Vector [1; 1; 1; 1; 1; 1; 1; 1; 1]%float)
  /\ notFoundMessage "Velvet" "left" "Transparent"
       ∈ logged (getCoefficientsFromMaterials
                   (Some {[ "walls" := "Velvet"; "left" := "Marble" ]})).
Proof.
  apply (unknown_walls_alias_resets_side_walls
           {[ "walls" := "Velvet"; "left" := "Marble" ]} "Velvet" "left").
  - vm_compute; reflexivity.
  - vm_compute; reflexivity.
  - vm_compute; reflexivity.
  - unfold sideWalls. apply list_elem_of_here.
Defined.

(** The resolver reads seven keys of the assignment and no other. *)
Theorem resolver_reads_seven_keys (m1 m2 : Materials) :
  m1 !! "walls" = m2 !! "walls" ->
  (forall key, key ∈ WallTypes -> m1 !! key = m2 !! key) ->
  coefficients (getCoefficientsFromMaterials (Some m1))
    = coefficients (getCoefficientsFromMaterials (Some m2))
  /\ logged (getCoefficientsFromMaterials (Some m1))
     = logged (getCoefficientsFromMaterials (Some m2)).
Proof.
  intros Hw Hk.
  assert (He : forall key, key ∈ WallTypes ->
            expandWalls m1 !! key = expandWalls m2 !! key).
  { intros key Hin. destruct (m1 !! "walls") as [walls |] eqn:E.
    - rewrite (expandWalls_lookup m1 walls), (expandWalls_lookup m2 walls) by done.
      by rewrite Hk.
    - rewrite !expandWalls_no_walls by done. by apply Hk. }
  split.
  - apply map_eq. intros key. rewrite !getCoefficients_lookup.
    change (default DefaultMaterials (Some ?x)) with x.
    destruct (decide (key ∈ WallTypes)) as [Hin | Hin].
    + rewrite !bool_decide_eq_true_2 by done. unfold resolveWall.
      by rewrite He.
    + by rewrite !bool_decide_eq_false_2.
  - rewrite !getCoefficients_logged.
    change (default DefaultMaterials (Some ?x)) with x.
    apply list_omap_ext, Forall2_same_length_lookup_2; [done |].
    intros i x y Hx Hy. rewrite Hx in Hy. injection Hy as <-.
    unfold wallMessage. rewrite He; [done |].
    by apply list_elem_of_lookup_2 in Hx.
Qed.

Lemma resolver_reads_seven_keys_witness :
  coefficients (getCoefficientsFromMaterials (Some wallsOnly))
    = coefficients
        (getCoefficientsFromMaterials (Some (<["roof" := "Marble"]> wallsOnly)))
  /\ logged (getCoefficientsFromMaterials (Some wallsOnly))
     = logged
         (getCoefficientsFromMaterials (Some (<["roof" := "Marble"]> wallsOnly))).
Proof.
  apply (resolver_reads_seven_keys wallsOnly (<["roof" := "Marble"]> wallsOnly)).
  - vm_compute; reflexivity.
  - intros key Hin. rewrite lookup_insert_ne; [reflexivity |].
    intros <-. unfold WallTypes in Hin. revert Hin.
    rewrite !elem_of_cons, elem_of_nil. intros H.
    repeat (destruct H as [H | H]; [discriminate |]). exact H.
Defined.

(** ** Further properties of the sanitizers *)

(** [sanitizeDimensions] returns an object that has width, height and
    depth, is idempotent, and turns an absent argument into the default
    dimensions (all 0). *)
Theorem sanitizeDimensions_complete_idempotent (d : option Dimensions) :
  (forall key, key ∈ DimensionTypes -> is_Some (sanitizeDimensions d !! key))
  /\ sanitizeDimensions (Some (sanitizeDimensions d)) = sanitizeDimensions d
  /\ sanitizeDimensions None = DefaultDimensions.
Proof.
  split; [| split].
  - intros key Hin. rewrite sanitizeDimensions_lookup.
    destruct (default ∅ d !! key); [by eexists |].
    rewrite bool_decide_eq_true_2 by done. by eexists.
  - apply map_eq. intros key.
    rewrite (sanitizeDimensions_lookup (Some _)).
    change (default ∅ (Some (sanitizeDimensions d))) with (sanitizeDimensions d).
    destruct (sanitizeDimensions d !! key) as [v |] eqn:E; [reflexivity |].
    rewrite sanitizeDimensions_lookup in E.
    destruct (default ∅ d !! key); [discriminate |].
    destruct (bool_decide (key ∈ DimensionTypes)); [discriminate | reflexivity].
  - apply map_eq. intros key. rewrite sanitizeDimensions_lookup.
    change (default ∅ None !! key) with ((∅ : Dimensions) !! key).
    rewrite lookup_empty.
    destruct (decide (key ∈ DimensionTypes)) as [Hin | Hin].
    + rewrite bool_decide_eq_true_2 by done. unfold DimensionTypes in Hin.
      repeat (apply elem_of_cons in Hin as [-> | Hin]; [by vm_compute |]).
      by apply elem_of_nil in Hin.
    + rewrite bool_decide_eq_false_2 by done. symmetry.
      by apply not_elem_of_list_to_map_1.
Qed.

Lemma sanitizeDimensions_complete_idempotent_witness :
  is_Some (sanitizeDimensions (Some {[ "width" := 4%float ]}) !! "depth").
Proof.
  apply (proj1 (sanitizeDimensions_complete_idempotent
                  (Some {[ "width" := 4%float ]}))).
  unfold DimensionTypes. rewrite !elem_of_cons. tauto.
Defined.

(** [sanitizeCoefficients] changes nothing in a set that has the six walls;
    in particular it returns what the resolver returned as it is. *)
Theorem sanitizeCoefficients_fixed_points :
  (forall c : Coefficients,
     (forall key, key ∈ WallTypes -> is_Some (c !! key)) ->
     sanitizeCoefficients (Some c) = c)
  /\ (forall materials,
        sanitizeCoefficients
          (Some (coefficients (getCoefficientsFromMaterials materials)))
        = coefficients (getCoefficientsFromMaterials materials)).
Proof.
  assert (H : forall c : Coefficients,
            (forall key, key ∈ WallTypes -> is_Some (c !! key)) ->
            sanitizeCoefficients (Some c) = c).
  { intros c Hc. apply map_eq. intros key.
    rewrite (sanitizeCoefficients_lookup (Some c)).
    change (default ∅ (Some c)) with c.
    destruct (c !! key) as [v |] eqn:E; [done |].
    destruct (decide (key ∈ WallTypes)) as [Hin | Hin].
    - destruct (Hc key Hin) as [v Hv]. congruence.
    - by rewrite bool_decide_eq_false_2. }
  split; [exact H |].
  intros materials. apply H. intros key Hin.
  rewrite getCoefficients_lookup, bool_decide_eq_true_2 by done. by eexists.
Qed.

Lemma sanitizeCoefficients_fixed_points_witness :
  sanitizeCoefficients (Some uniformWalls) = uniformWalls.
Proof.
  apply (proj1 sanitizeCoefficients_fixed_points uniformWalls).
  intros key Hin. unfold WallTypes in Hin.
  repeat (apply elem_of_cons in Hin as [-> | Hin];
    [vm_compute; eexists; reflexivity |]).
  by apply elem_of_nil in Hin.
Defined.

(** ** Further properties of the RT60 estimator *)

Section MoreRT60.
Variable G : Globals.
Variable Math_log : float -> float.

Lemma computeRT60Secs_total dims coefs sos :
  noUndefined coefs = true ->
  exists rt, computeRT60Secs G Math_log dims coefs sos = Some rt
             /\ length rt = NumReverbBands.
Proof.
  intros Hdef.
  destruct (PrimFloat.ltb (roomVolume dims) MinVolume) eqn:E.
  - rewrite computeRT60Secs_skip by done. eexists. split; [done |].
    unfold Float32Array. by rewrite length_replicate.
  - rewrite computeRT60Secs_bands by done. eexists. split; [done |].
    by rewrite length_map, length_seq.
Qed.

(** For every dimensions, speed of sound and set with no wall stored as
    undefined, [computeRT60Secs] returns (it does not raise) a profile of
    nine bands; so it does on every set the resolver returns. *)
Theorem computeRT60Secs_never_raises_on_defined_sets :
  (forall dims coefs sos,
     noUndefined coefs = true ->
     exists rt, computeRT60Secs G Math_log dims coefs sos = Some rt
                /\ length rt = NumReverbBands)
  /\ (forall dims materials sos,
        exists rt,
          computeRT60Secs G Math_log dims
            (Some (coefficients (getCoefficientsFromMaterials materials))) sos
          = Some rt
          /\ length rt = NumReverbBands).
Proof.
  split.
  - apply computeRT60Secs_total.
  - intros dims materials sos. apply computeRT60Secs_total.
    apply resolver_defined.
Qed.

Lemma for_loop_raises {S} n (body : nat -> S -> option S) s :
  1 <= n -> (forall i s, body i s = None) -> for_loop n body s = None.
Proof.
  intros Hn Hb. destruct n as [| n]; [lia |].
  rewrite for_loop_S. destruct (for_loop n body s); [apply Hb | done].
Qed.

Lemma index_undefined (coefs : Coefficients) key i :
  coefs !! key = Some Undefined ->
  index (sanitizeCoefficients (Some coefs) !! key) i = None.
Proof.
  intros H. rewrite (sanitizeCoefficients_lookup (Some coefs)).
  change (default ∅ (Some coefs)) with coefs. by rewrite H.
Qed.

(** A set in which a wall is stored as undefined makes [computeRT60Secs]
    raise a TypeError, unless the volume is below [MinVolume]: the volume is
    tested before any coefficient is read, and the nine zeros are returned. *)
Theorem computeRT60Secs_raises_on_undefined_wall
    (dims : option Dimensions) (coefs : Coefficients) sos key :
  key ∈ WallTypes -> coefs !! key = Some Undefined ->
  computeRT60Secs G Math_log dims (Some coefs) sos =
    if PrimFloat.ltb (roomVolume dims) MinVolume then Some zeroProfile else None.
Proof.
  intros Hin Hu.
  destruct (PrimFloat.ltb (roomVolume dims) MinVolume) eqn:E.
  - by rewrite computeRT60Secs_skip.
  - unfold computeRT60Secs.
    change (number_at (sanitizeDimensions dims) "width" *
            number_at (sanitizeDimensions dims) "height" *
            number_at (sanitizeDimensions dims) "depth")%float
      with (roomVolume dims).
    rewrite E. apply for_loop_raises; [unfold NumReverbBands; lia |].
    intros i s. unfold rt60Band.
    pose proof (index_undefined coefs key i Hu) as Hi.
    unfold WallTypes in Hin.
    repeat (apply elem_of_cons in Hin as [-> | Hin];
      [rewrite Hi;
       repeat match goal with
              | |- context [index ?o i ≫= _] => destruct (index o i)
              end; reflexivity |]).
    by apply elem_of_nil in Hin.
Qed.

End MoreRT60.

Lemma computeRT60Secs_never_raises_on_defined_sets_witness :
  exists rt,
    computeRT60Secs SampleGlobals sample_log (Some room435) (Some uniformWalls)
      None = Some rt
    /\ length rt = NumReverbBands.
Proof.
  apply (proj1 (computeRT60Secs_never_raises_on_defined_sets SampleGlobals
                  sample_log)).
  vm_compute; reflexivity.
Defined.

Lemma computeRT60Secs_raises_on_undefined_wall_witness :
  computeRT60Secs SampleGlobals sample_log (Some room435) (Some undefinedLeft)
    None = None
  /\ computeRT60Secs SampleGlobals sample_log (Some tinyRoom)
       (Some undefinedLeft) None = Some zeroProfile.
Proof.
  split.
  - rewrite (computeRT60Secs_raises_on_undefined_wall SampleGlobals sample_log
               (Some room435) undefinedLeft None "left").
    + vm_compute; reflexivity.
    + unfold WallTypes. apply list_elem_of_here.
    + vm_compute; reflexivity.
  - rewrite (computeRT60Secs_raises_on_undefined_wall SampleGlobals sample_log
               (Some tinyRoom) undefinedLeft None "left").
    + vm_compute; reflexivity.
    + unfold WallTypes. apply list_elem_of_here.
    + vm_compute; reflexivity.
Defined.

Section MoreRT60NaN.
Variable G : Globals.
Variable Math_log : float -> float.

Lemma is_nan_true (x : float) : PrimFloat.is_nan x = true -> x = nan.
Proof.
  intros H. apply Prim2SF_inj. change (Prim2SF nan) with S754_nan.
  destruct (sf_is_nan (Prim2SF x)) eqn:E; [by destruct (Prim2SF x) |].
  by rewrite (SF_is_nan x E) in H.
Qed.

Lemma mul_nan_r (x : float) : (x * nan)%float = nan.
Proof.
  apply Prim2SF_inj. rewrite FloatAxioms.mul_spec.
  change (Prim2SF nan) with S754_nan. unfold SF64mul.
  by destruct (Prim2SF x).
Qed.

Lemma mul_nan_l (x : float) : (nan * x)%float = nan.
Proof.
  apply Prim2SF_inj. rewrite FloatAxioms.mul_spec.
  change (Prim2SF nan) with S754_nan. unfold SF64mul.
  by destruct (Prim2SF x).
Qed.

Lemma div_nan_l (x : float) : (nan / x)%float = nan.
Proof.
  apply Prim2SF_inj. rewrite FloatAxioms.div_spec.
  change (Prim2SF nan) with S754_nan. unfold SF64div.
  by destruct (Prim2SF x).
Qed.

(** The guard [volume < MinVolume] lets a NaN volume through: every band of
    the profile is then NaN.  A NaN dimension is enough for the volume to be
    NaN. *)
Theorem nan_volume_gives_nan_profile :
  (forall dims coefs sos,
     noUndefined coefs = true ->
     PrimFloat.is_nan (roomVolume dims) = true ->
     computeRT60Secs G Math_log dims coefs sos
       = Some (replicate NumReverbBands nan))
  /\ (forall (dims : Dimensions) key,
        key ∈ DimensionTypes -> dims !! key = Some nan ->
        PrimFloat.is_nan (roomVolume (Some dims)) = true).
Proof.
  split.
  - intros dims coefs sos Hdef Hnan. apply is_nan_true in Hnan.
    rewrite computeRT60Secs_bands; [| done | by rewrite Hnan].
    f_equal.
    assert (Hb : forall i, fround (bandRT60 G Math_log dims
                                      (sanitizeCoefficients coefs) sos i) = nan).
    { intros i. unfold bandRT60, SabineRT60, EyringRT60.
      rewrite Hnan, mul_nan_r, !div_nan_l. by destruct (PrimFloat.leb _ _). }
    unfold NumReverbBands. cbn [seq map]. by rewrite !Hb.
  - intros dims key Hin Hk.
    assert (Hn : number_at (sanitizeDimensions (Some dims)) key = nan).
    { unfold number_at. rewrite (sanitizeDimensions_lookup (Some dims)).
      change (default ∅ (Some dims)) with dims. by rewrite Hk. }
    unfold roomVolume, width, height, depth. unfold DimensionTypes in Hin.
    repeat (apply elem_of_cons in Hin as [-> | Hin];
      [rewrite Hn; by rewrite ?mul_nan_r, ?mul_nan_l |]).
    by apply elem_of_nil in Hin.
Qed.

End MoreRT60NaN.

Lemma nan_volume_gives_nan_profile_witness :
  computeRT60Secs SampleGlobals sample_log (Some overflowRoom)
    (Some uniformWalls) None = Some (replicate NumReverbBands nan).
Proof.
  apply (proj1 (nan_volume_gives_nan_profile SampleGlobals sample_log));
    vm_compute; reflexivity.
Defined.

(** ** Further properties of the reflection coefficients *)

Section MoreReflections.
Variable G : Globals.

Lemma windowMean_vector (c : Coefficients) key v :
  c !! key = Some (Vector v) ->
  PrimFloat.sqrt (1 - windowMean G c key) =
    reflectanceOf v (DefaultReflectionsStartingBand G)
      (DefaultReflectionsNumAveragingBands G).
Proof.
  intros H. unfold windowMean, reflectanceOf, coeff. by rewrite H.
Qed.

Lemma window_listed :
  windowInBands G ->
  (DefaultReflectionsStartingBand G, DefaultReflectionsNumAveragingBands G)
    ∈ windows.
Proof.
  intros [H1 H2]. unfold windows. apply list_elem_of_In, in_flat_map.
  exists (DefaultReflectionsNumAveragingBands G). split.
  - apply in_seq. unfold NumReverbBands in *. lia.
  - apply in_map_iff. exists (DefaultReflectionsStartingBand G).
    split; [reflexivity |]. apply in_seq. unfold NumReverbBands in *. lia.
Qed.

Lemma forallb_pairs {A B} (P : A -> B -> bool) (l : list A) (k : list B) :
  forallb (fun a => forallb (fun b => P a b) k) l = true ->
  forall a b, In a l -> In b k -> P a b = true.
Proof.
  rewrite forallb_forall. intros H a b Ha Hb.
  specialize (H a Ha). rewrite forallb_forall in H. exact (H b Hb).
Qed.

Lemma in_MaterialList name v :
  MaterialCoefficients !! name = Some v -> In (name, v) MaterialList.
Proof.
  intros H. apply elem_of_map_to_list in H.
  assert (E : map_to_list MaterialCoefficients = MaterialList)
    by (vm_compute; reflexivity).
  rewrite E in H. by apply list_elem_of_In.
Qed.

Lemma library_reflectance_in_range name v :
  windowInBands G -> MaterialCoefficients !! name = Some v ->
  inUnitInterval
    (reflectanceOf v (DefaultReflectionsStartingBand G)
       (DefaultReflectionsNumAveragingBands G)) = true.
Proof.
  intros Hw Hv%in_MaterialList.
  assert (Hall : libraryReflectancesInRange = true) by (vm_compute; reflexivity).
  apply window_listed, list_elem_of_In in Hw.
  exact (forallb_pairs
           (fun (entry : string * list float) (w : nat * nat) =>
              inUnitInterval (reflectanceOf entry.2 w.1 w.2))
           MaterialList windows Hall (name, v) (_, _) Hv Hw).
Qed.

Lemma resolver_library_vector (m : Materials) key :
  map_Forall (fun _ name => inherited name = false) m ->
  key ∈ WallTypes ->
  exists name v,
    coefficients (getCoefficientsFromMaterials (Some m)) !! key = Some (Vector v)
    /\ MaterialCoefficients !! name = Some v.
Proof.
  intros Hm Hin.
  rewrite getCoefficients_lookup, bool_decide_eq_true_2 by done.
  change (default DefaultMaterials (Some m)) with m.
  assert (Hd : exists v, defaultCoefficients key = Vector v
                         /\ MaterialCoefficients !! "Transparent" = Some v).
  { rewrite defaultCoefficients_wall by done. eexists. split; [done |].
    by vm_compute. }
  destruct Hd as (vd & Hd1 & Hd2).
  unfold resolveWall.
  destruct (expandWalls m !! key) as [name |] eqn:E.
  - destruct (expandWalls_values m key name E) as [key' Hk'].
    apply Hm in Hk'. unfold has_property, get_vector. rewrite Hk', orb_false_r.
    destruct (MaterialCoefficients !! name) as [v |] eqn:Ev.
    + rewrite bool_decide_eq_true_2 by (by eexists). cbn [default from_option id].
      eauto.
    + rewrite bool_decide_eq_false_2 by (by intros [? ?]).
      cbn [default from_option id]. rewrite Hd1. eauto.
  - cbn [default from_option id]. rewrite Hd1. eauto.
Qed.

(** With the averaging window inside the nine bands, a wall that holds the
    vector of a library material gets a reflection coefficient between 0 and
    1; so does every wall of a set resolved from an assignment none of whose
    names is an inherited property. *)
Theorem library_materials_reflect_within_unit_interval :
  windowInBands G ->
  (forall (coefs : option Coefficients) key name v,
     noUndefined coefs = true -> key ∈ WallTypes ->
     MaterialCoefficients !! name = Some v ->
     sanitizeCoefficients coefs !! key = Some (Vector v) ->
     exists r,
       computeReflectionCoefficients G coefs ≫= (.!! key) = Some r
       /\ inUnitInterval r = true)
  /\ (forall (m : Materials) key,
        map_Forall (fun _ name => inherited name = false) m ->
        key ∈ WallTypes ->
        exists r,
          computeReflectionCoefficients G
            (Some (coefficients (getCoefficientsFromMaterials (Some m))))
            ≫= (.!! key) = Some r
          /\ inUnitInterval r = true).
Proof.
  intros Hw.
  assert (H : forall (coefs : option Coefficients) key name v,
     noUndefined coefs = true -> key ∈ WallTypes ->
     MaterialCoefficients !! name = Some v ->
     sanitizeCoefficients coefs !! key = Some (Vector v) ->
     exists r,
       computeReflectionCoefficients G coefs ≫= (.!! key) = Some r
       /\ inUnitInterval r = true).
  { intros coefs key name v Hdef Hin Hv Hc.
    destruct (computeReflectionCoefficients_wall G coefs key Hdef Hin)
      as (rc & -> & Hrc).
    cbn [mbind option_bind]. rewrite Hrc, (windowMean_vector _ key v) by done.
    eexists. split; [done |]. by apply (library_reflectance_in_range name). }
  split; [exact H |].
  intros m key Hm Hin.
  destruct (resolver_library_vector m key Hm Hin) as (name & v & Hr & Hv).
  apply (H _ key name v); [apply resolver_defined | done | done |].
  rewrite (sanitizeCoefficients_lookup (Some _)).
  change (default ∅ (Some ?c)) with c. by rewrite Hr.
Qed.

Lemma reflect_fold_other (F : string -> float -> float) (keys : list string)
    (rc : gmap string float) key :
  key ∉ keys ->
  foldl (fun rc k => <[k := F k (number_at rc k)]> rc) rc keys !! key = rc !! key.
Proof.
  revert rc. induction keys as [| k keys IH]; intros rc Hk; [done |].
  apply not_elem_of_cons in Hk as [? ?]. cbn [foldl].
  rewrite IH by done. by rewrite lookup_insert_ne.
Qed.

Lemma reflect_raises (c : Coefficients) key (keys : list string)
    (acc : option (gmap string float)) :
  (forall rc, reflectWall G c rc key = None) -> key ∈ keys ->
  foldl (fun acc key => acc ≫= fun rc => reflectWall G c rc key) acc keys = None.
Proof.
  intros Hr.
  assert (Hnone : forall l : list string,
            foldl (fun acc key => acc ≫= fun rc => reflectWall G c rc key)
              None l = None).
  { intros l. induction l as [| k l IHl]; [reflexivity | exact IHl]. }
  revert acc. induction keys as [| k keys IH]; intros acc Hin.
  - by apply elem_of_nil in Hin.
  - cbn [foldl]. apply elem_of_cons in Hin as [<- | Hin]; [| by apply IH].
    destruct acc as [rc |]; cbn [mbind option_bind]; [rewrite Hr |];
      apply Hnone.
Qed.

(** On a set with no wall stored as undefined
    [computeReflectionCoefficients] returns an object whose keys are exactly
    the six walls; on a set with a wall stored as undefined it raises a
    TypeError, when the averaging window has at least one band. *)
Theorem computeReflectionCoefficients_defined_or_raises :
  (forall coefs : option Coefficients,
     noUndefined coefs = true ->
     exists rc, computeReflectionCoefficients G coefs = Some rc
                /\ dom rc = list_to_set WallTypes)
  /\ (forall (coefs : Coefficients) key,
        1 <= DefaultReflectionsNumAveragingBands G ->
        key ∈ WallTypes -> coefs !! key = Some Undefined ->
        computeReflectionCoefficients G (Some coefs) = None).
Proof.
  split.
  - intros coefs Hdef. rewrite computeReflectionCoefficients_fold by done.
    eexists. split; [reflexivity |]. apply set_eq. intros key.
    rewrite elem_of_dom, elem_of_list_to_set.
    destruct (decide (key ∈ WallTypes)) as [Hin | Hin].
    + rewrite (reflect_fold (wallValue G coefs) WallTypes _ key
                 WallTypes_NoDup Hin). split; [done | by eexists].
    + rewrite reflect_fold_other by done. split; [| done].
      intros [x Hx]. apply elem_of_list_to_map_2 in Hx.
      apply (list_elem_of_fmap_2 fst) in Hx. cbn in Hx.
      contradict Hin. revert Hx. unfold WallTypes.
      rewrite !elem_of_cons, !elem_of_nil. tauto.
  - intros coefs key Hn Hin Hu. unfold computeReflectionCoefficients.
    apply (reflect_raises _ key); [| done].
    intros rc. unfold reflectWall.
    rewrite for_loop_raises; [done | done |].
    intros j s. by rewrite index_undefined.
Qed.

End MoreReflections.

Lemma library_materials_reflect_within_unit_interval_witness :
  exists r,
    computeReflectionCoefficients SampleGlobals
      (Some (coefficients (getCoefficientsFromMaterials (Some wallsOnly))))
      ≫= (.!! "left") = Some r
    /\ inUnitInterval r = true.
Proof.
  apply (proj2 (library_materials_reflect_within_unit_interval SampleGlobals
                  ltac:(unfold windowInBands, NumReverbBands; cbn; lia))
           wallsOnly "left").
  - apply (bool_decide_unpack _). vm_compute. reflexivity.
  - unfold WallTypes. apply list_elem_of_here.
Defined.

Lemma computeReflectionCoefficients_defined_or_raises_witness :
  computeReflectionCoefficients SampleGlobals (Some undefinedLeft) = None.
Proof.
  apply (proj2 (computeReflectionCoefficients_defined_or_raises SampleGlobals)
           undefinedLeft "left").
  - cbn; lia.
  - unfold WallTypes. apply list_elem_of_here.
  - vm_compute; reflexivity.
Defined.
